(** * Green-Energy predictive advisor: the calculation engine (engine.py)

    A shallow embedding of [src/engine.py] and the properties of its
    load-profile, solar, savings and tier-recommendation functions.

    Modelling conventions.
    - Python values that come out of [json.load] are the inductive [json];
      a Python [dict] is an association list in insertion order (keys of a
      real dict are distinct; nothing below needs that, so the theorems hold
      for every association list).
    - Python floats are idealised as exact rationals [Q]: no rounding error,
      no overflow, no NaN and no infinity.  Equality of numbers is [Qeq].
    - Exceptions are the values of [exn]; a function that can raise returns
      a [result].
    - [float(s)] and [int(s)] on a string [s] are the section variables
      [str_to_float] and [str_to_int]: the theorems hold for every parser. *)

From Stdlib Require Import ZArith QArith Qround Qminmax Lqa Lia.
From Stdlib Require Qpower.
From Stdlib Require Import List String Ascii Bool.
From Stdlib Require Import Sorting.Sorted Sorting.Permutation.
Import ListNotations.

Local Open Scope string_scope.
Local Open Scope Q_scope.
Local Set Warnings "-register-all".

(** ** Python values *)

Inductive json : Type :=
| JNull
| JBool (b : bool)
| JNum (q : Q)
| JStr (s : string)
| JArr (l : list json)
| JObj (d : list (string * json)).

Definition dict : Type := list (string * json).

Inductive exn : Type :=
| KeyError (msg : string)
| ValueError (msg : string)
| TypeError
| AttributeError
| IndexError.

Inductive result (A : Type) : Type :=
| Ok (a : A)
| Raise (e : exn).

Arguments Ok {A} a.
Arguments Raise {A} e.

Definition bind {A B : Type} (r : result A) (k : A -> result B) : result B :=
  match r with
  | Ok a => k a
  | Raise e => Raise e
  end.

Notation "x <- c ;; k" := (bind c (fun x => k))
  (at level 61, c at next level, right associativity).

(** [try: c except (TypeError, ValueError): h] *)
Definition try_except_type_value {A : Type} (c : result A) (h : result A)
  : result A :=
  match c with
  | Raise TypeError => h
  | Raise (ValueError _) => h
  | other => other
  end.

(** ** Dictionaries *)

Fixpoint dict_get (d : dict) (k : string) : option json :=
  match d with
  | [] => None
  | (k', v) :: d' => if String.eqb k k' then Some v else dict_get d' k
  end.

(** [d.get(k)]: [None] when the key is absent. *)
Definition get (d : dict) (k : string) : json :=
  match dict_get d k with
  | Some v => v
  | None => JNull
  end.

(** [d.get(k, default)] *)
Definition get_default (d : dict) (k : string) (default : json) : json :=
  match dict_get d k with
  | Some v => v
  | None => default
  end.

(** [k in d] *)
Definition dict_mem (d : dict) (k : string) : bool :=
  match dict_get d k with
  | Some _ => true
  | None => false
  end.

(** [d.setdefault(k, v)]: a new key goes to the end. *)
Definition setdefault (d : dict) (k : string) (v : json) : dict :=
  if dict_mem d k then d else (d ++ [(k, v)])%list.

(** [d[k] = v] *)
Fixpoint dict_set (d : dict) (k : string) (v : json) : dict :=
  match d with
  | [] => [(k, v)]
  | (k', v') :: d' =>
      if String.eqb k k' then (k', v) :: d' else (k', v') :: dict_set d' k v
  end.

(** [x.get(k, default)] on a value of unknown type: only a dict has [get]. *)
Definition attr_get (x : json) (k : string) (default : json) : result json :=
  match x with
  | JObj d => Ok (get_default d k default)
  | _ => Raise AttributeError
  end.

(** [d.get(key)] with a key of unknown type.  The keys of a dict read from
    JSON are strings, so a hashable key that is not a string is absent;
    lists and dicts are unhashable. *)
Definition get_dyn (d : dict) (key : json) : result json :=
  match key with
  | JStr s => Ok (get d s)
  | JArr _ | JObj _ => Raise TypeError
  | _ => Ok JNull
  end.

(** ** Truth, conversions, rounding *)

Definition Qnonzero (q : Q) : bool := negb (Qeq_bool q 0).

(** Python truthiness. *)
Definition truthy (v : json) : bool :=
  match v with
  | JNull => false
  | JBool b => b
  | JNum q => Qnonzero q
  | JStr s => negb (String.eqb s "")
  | JArr l => match l with [] => false | _ => true end
  | JObj d => match d with [] => false | _ => true end
  end.

Definition str_truthy (s : string) : bool := negb (String.eqb s "").

(** [int(x)] on a float truncates toward zero. *)
Definition Qtrunc (q : Q) : Z := Z.quot (Qnum q) (Zpos (Qden q)).

(** [round(x)]: nearest integer, ties to the even one. *)
Definition round_half_even (q : Q) : Z :=
  let f := Qfloor q in
  match Qcompare (q - inject_Z f) (1 # 2) with
  | Lt => f
  | Gt => (f + 1)%Z
  | Eq => if Z.even f then f else (f + 1)%Z
  end.

(** [round(x, ndigits)] *)
Definition py_round (q : Q) (ndigits : nat) : Q :=
  let scale := inject_Z (Z.pow 10 (Z.of_nat ndigits)) in
  inject_Z (round_half_even (q * scale)) / scale.

(** ASCII lower-casing, which is what [str.lower] does to every character
    that can lower-case to a letter of a pack-group name. *)
Definition lower_ascii (c : ascii) : ascii :=
  let n := nat_of_ascii c in
  if (Nat.leb 65 n && Nat.leb n 90)%bool then ascii_of_nat (n + 32) else c.

Fixpoint lower (s : string) : string :=
  match s with
  | EmptyString => EmptyString
  | String c s' => String (lower_ascii c) (lower s')
  end.

Definition str_in (s : string) (l : list string) : bool :=
  existsb (String.eqb s) l.

(** ** Bands and accumulators *)

Definition band : Type := (Q * Q * Q)%type.

Definition band_zero : band := (0, 0, 0).


(** [band[i]] for an index already clamped into 0..2. *)
Definition band_nth (b : band) (i : Z) : Q :=
  let '(b0, b1, b2) := b in
  if (i =? 0)%Z then b0 else if (i =? 1)%Z then b1 else b2.

(** The six running totals of [compute_load_profile]. *)
Record acc : Type := mkAcc {
  min_kwh : Q;
  avg_kwh : Q;
  max_kwh : Q;
  peak_min : Q;
  peak_avg : Q;
  peak_max : Q
}.

Definition acc_zero : acc := mkAcc 0 0 0 0 0 0.

Definition acc_eq (a b : acc) : Prop :=
  min_kwh a == min_kwh b /\ avg_kwh a == avg_kwh b /\ max_kwh a == max_kwh b /\
  peak_min a == peak_min b /\ peak_avg a == peak_avg b /\ peak_max a == peak_max b.



Definition peaks_nonneg (a : acc) : Prop :=
  0 <= peak_min a /\ 0 <= peak_avg a /\ 0 <= peak_max a.

(** Two outcomes that agree: the same exception, or totals equal as numbers. *)
Definition same_outcome (r s : result acc) : Prop :=
  match r, s with
  | Ok a, Ok b => acc_eq a b
  | Raise e, Raise e' => e = e'
  | _, _ => False
  end.

Definition Qlt_bool (a b : Q) : bool := negb (Qle_bool b a).

(** A returned band, a list of three numbers, with min <= typical <= max. *)
Definition band_ordered (v : json) : Prop :=
  match v with
  | JArr [JNum lo; JNum ty; JNum hi] => lo <= ty /\ ty <= hi
  | _ => False
  end.

(** ** Concrete parsers and catalogs used by the examples *)

(** Plain strings of ASCII digits, on which Python's [int] and [float]
    give the number written; every other string is rejected here. *)
Fixpoint digits_value (s : string) (n : Z) : option Z :=
  match s with
  | EmptyString => Some n
  | String c rest =>
      let d := nat_of_ascii c in
      if (Nat.leb 48 d && Nat.leb d 57)%bool
      then digits_value rest (10 * n + Z.of_nat (d - 48))%Z
      else None
  end.

Definition digits_to_int (s : string) : option Z :=
  match s with
  | EmptyString => None
  | _ => digits_value s 0%Z
  end.

Definition digits_to_float (s : string) : option Q :=
  option_map inject_Z (digits_to_int s).

Definition num_list (a b c : Q) : json := JArr [JNum a; JNum b; JNum c].

Definition demo_archetypes : dict :=
  [ ("home", JObj [ ("base_load_kwh_day", num_list 2 3 (45 # 10));
                    ("base_peak_w", num_list 200 400 800) ]);
    ("cabin", JObj [ ("base_load_kwh_day", JArr [JStr "1"; JStr "2"; JStr "3"]);
                     ("base_peak_w", num_list 100 200 300) ]);
    ("shed", JObj [ ("base_load_kwh_day", JStr "unknown");
                    ("base_peak_w", JArr [JNum 100; JNull; JNum 300]) ]) ].

Definition demo_packs_ac1p : dict :=
  [ ("lighting", JObj [ ("kwh_day", num_list (5 # 10) 1 2);
                        ("peak_w", num_list 50 100 300) ]);
    ("heater", JObj [ ("kwh_day", num_list 1 2 3);
                      ("peak_w", num_list 500 600 700) ]);
    ("broken", JObj [ ("kwh_day", JStr "n/a");
                      ("peak_w", JArr [JNum 1; JNull; JNum 3]) ]) ].

Definition demo_solar : dict :=
  [ ("Izmir", JObj [ ("summer_kwh_per_kwp", JNum (52 # 10));
                     ("winter_kwh_per_kwp", JNum (28 # 10)) ]) ].

Definition demo_tiers : dict :=
  [ ("tier_3_pro", JObj [ ("capacity_wh_total", JNum 6000);
                          ("inverter_w_continuous", JNum 3600) ]);
    ("tier_1_basic", JObj [ ("capacity_wh_total", JNum 1000);
                            ("inverter_w_continuous", JNum 1800) ]);
    ("tier_2_comfort", JObj [ ("capacity_wh_total", JNum 2000);
                              ("inverter_w_continuous", JNum 2400) ]) ].

(** A catalog of one tier whose capacity is null. *)
Definition null_capacity_tiers : dict :=
  [ ("tier_x", JObj [ ("capacity_wh_total", JNull);
                      ("inverter_w_continuous", JNum 1000) ]) ].

Definition selection (group key : string) (usage_index : Z) : dict :=
  [ ("group", JStr group); ("key", JStr key);
    ("usage_index", JNum (inject_Z usage_index)) ].

(** ** The engine *)

Section Engine.

(** [float(s)] and [int(s)] on a string. *)
Variable str_to_float : string -> option Q.
Variable str_to_int : string -> option Z.

(** The catalogs loaded once from the datasets directory. *)
Variable archetypes_db : dict.
Variable ecoflow_tiers_db : dict.
Variable packs_ac1p_db : dict.
Variable packs_ac3p_db : dict.
Variable packs_dc12v_db : dict.
Variable packs_dc24v_db : dict.
Variable packs_dc48v_db : dict.
Variable solar_generation_db : dict.

(** [float(x)] *)
Definition py_float (v : json) : result Q :=
  match v with
  | JNull => Raise TypeError
  | JBool b => Ok (if b then 1 else 0)
  | JNum q => Ok q
  | JStr s =>
      match str_to_float s with
      | Some q => Ok q
      | None => Raise (ValueError "could not convert string to float")
      end
  | JArr _ | JObj _ => Raise TypeError
  end.

(** [int(x)] *)
Definition py_int (v : json) : result Z :=
  match v with
  | JNull => Raise TypeError
  | JBool b => Ok (if b then 1 else 0)%Z
  | JNum q => Ok (Qtrunc q)
  | JStr s =>
      match str_to_int s with
      | Some z => Ok z
      | None => Raise (ValueError "invalid literal for int()")
      end
  | JArr _ | JObj _ => Raise TypeError
  end.

(** [(group or "").lower()] *)
Definition group_name (group : json) : result string :=
  match (if truthy group then group else JStr "") with
  | JStr s => Ok (lower s)
  | _ => Raise AttributeError
  end.

Definition known_group (g : string) : bool :=
  str_in g ["ac1p"; "ac"; "ac_1p"; "ac3p"; "ac_3p";
            "dc12"; "dc12v"; "dc24"; "dc24v"; "dc48"; "dc48v"].

Definition _get_pack_db (group : json) : result dict :=
  g <- group_name group ;;
  if str_in g ["ac1p"; "ac"; "ac_1p"] then Ok packs_ac1p_db
  else if str_in g ["ac3p"; "ac_3p"] then Ok packs_ac3p_db
  else if str_in g ["dc12"; "dc12v"] then Ok packs_dc12v_db
  else if str_in g ["dc24"; "dc24v"] then Ok packs_dc24v_db
  else if str_in g ["dc48"; "dc48v"] then Ok packs_dc48v_db
  else Raise (KeyError ("Unknown pack group: " ++ g)).

Definition three_list (v : json) : bool :=
  match v with
  | JArr [_; _; _] => true
  | _ => false
  end.

Definition _safe_band (value : json) : result band :=
  match value with
  | JArr [v0; v1; v2] =>
      try_except_type_value
        (m0 <- py_float v0 ;;
         m1 <- py_float v1 ;;
         m2 <- py_float v2 ;;
         Ok (m0, m1, m2))
        (Ok band_zero)
  | _ => Ok band_zero
  end.


(** The archetype baseline: energy is added, peaks are running maxima. *)
Definition add_archetype (a : acc) (arch : json) : result acc :=
  v <- attr_get arch "base_load_kwh_day" JNull ;;
  b <- _safe_band v ;;
  w <- attr_get arch "base_peak_w" JNull ;;
  p <- _safe_band w ;;
  let '(b_min, b_avg, b_max) := b in
  let '(p_min, p_avg, p_max) := p in
  Ok (mkAcc (min_kwh a + b_min) (avg_kwh a + b_avg) (max_kwh a + b_max)
            (Qmax (peak_min a) p_min) (Qmax (peak_avg a) p_avg)
            (Qmax (peak_max a) p_max)).

(** What one resolved pack does to the totals at a clamped usage index. *)
Definition apply_pack (a : acc) (usage_index : Z) (k p : band) : acc :=
  let '(k_min, k_avg, k_max) := k in
  let '(p_min, p_avg, p_max) := p in
  let kwh_val := band_nth k usage_index in
  let peak_val := band_nth p usage_index in
  let a1 :=
    if (usage_index =? 0)%Z then
      mkAcc (min_kwh a + kwh_val) (avg_kwh a) (max_kwh a)
            (peak_min a) (peak_avg a) (peak_max a)
    else if (usage_index =? 1)%Z then
      mkAcc (min_kwh a) (avg_kwh a + kwh_val) (max_kwh a)
            (peak_min a) (peak_avg a) (peak_max a)
    else
      mkAcc (min_kwh a) (avg_kwh a) (max_kwh a + kwh_val)
            (peak_min a) (peak_avg a) (peak_max a) in
  let a2 :=
    if (usage_index =? 0)%Z then
      mkAcc (min_kwh a1) (avg_kwh a1) (max_kwh a1)
            (Qmax (peak_min a1) peak_val) (peak_avg a1) (peak_max a1)
    else if (usage_index =? 1)%Z then
      mkAcc (min_kwh a1) (avg_kwh a1) (max_kwh a1)
            (peak_min a1) (Qmax (peak_avg a1) peak_val) (peak_max a1)
    else
      mkAcc (min_kwh a1) (avg_kwh a1) (max_kwh a1)
            (peak_min a1) (peak_avg a1) (Qmax (peak_max a1) peak_val) in
  if (usage_index =? 1)%Z then
    mkAcc (min_kwh a2 + k_min) (avg_kwh a2) (max_kwh a2 + k_max)
          (Qmax (peak_min a2) p_min) (peak_avg a2) (Qmax (peak_max a2) p_max)
  else a2.

(** [max(0, min(usage_index, 2))] *)
Definition clamp_usage (u : Z) : Z := Z.max 0 (Z.min u 2).

(** One iteration of the loop over the pack selections. *)
Definition pack_step (a : acc) (item : dict) : result acc :=
  let group := get_default item "group" (JStr "ac1p") in
  let key := get item "key" in
  u <- py_int (get_default item "usage_index" (JNum 1)) ;;
  let usage_index := clamp_usage u in
  pack_db <- _get_pack_db group ;;
  pack <- get_dyn pack_db key ;;
  if negb (truthy pack) then Ok a
  else
    v <- attr_get pack "kwh_day" JNull ;;
    k <- _safe_band v ;;
    w <- attr_get pack "peak_w" JNull ;;
    p <- _safe_band w ;;
    Ok (apply_pack a usage_index k p).



(** The key of a selection is absent from a catalog: no key at all, or a
    string the catalog does not hold. *)
Definition key_absent (pack_db : dict) (key : json) : Prop :=
  key = JNull \/ exists s, key = JStr s /\ dict_get pack_db s = None.

Fixpoint pack_loop (a : acc) (packs : list dict) : result acc :=
  match packs with
  | [] => Ok a
  | item :: rest => a' <- pack_step a item ;; pack_loop a' rest
  end.

(** The block under the comment `consistency`. *)
Definition consistency (a : acc) : band :=
  let max1 :=
    if (Qeq_bool (max_kwh a) 0 && Qlt_bool 0 (avg_kwh a))%bool
    then avg_kwh a else max_kwh a in
  let min1 := Qmin (Qmin (min_kwh a) (avg_kwh a)) max1 in
  let max2 := Qmax (Qmax max1 (avg_kwh a)) min1 in
  let avg1 := if Qlt_bool (avg_kwh a) min1 then min1 else avg_kwh a in
  (min1, avg1, max2).

Definition opt_str (s : option string) : json :=
  match s with
  | Some s => JStr s
  | None => JNull
  end.

Definition opt_str_truthy (s : option string) : bool :=
  match s with
  | Some s => str_truthy s
  | None => false
  end.

(** The totals before the consistency block. *)
Definition load_totals (archetype_id : option string) (expert_mode : bool)
    (packs : list dict) : result acc :=
  a <- (if (negb expert_mode && opt_str_truthy archetype_id)%bool then
          let arch := get archetypes_db
                        (match archetype_id with Some s => s | None => "" end) in
          if negb (truthy arch) then
            Raise (KeyError ("Archetype '"
                             ++ match archetype_id with Some s => s | None => "" end
                             ++ "' not found."))
          else add_archetype acc_zero arch
        else Ok acc_zero) ;;
  pack_loop a packs.

Definition load_result (archetype_id : option string) (expert_mode : bool)
    (a : acc) : dict :=
  let '(lo, ty, hi) := consistency a in
  [ ("archetype", opt_str archetype_id);
    ("expert_mode", JBool expert_mode);
    ("daily_kwh_band",
      JArr [JNum (py_round lo 3); JNum (py_round ty 3); JNum (py_round hi 3)]);
    ("peak_power_band_w",
      JArr [JNum (inject_Z (round_half_even (peak_min a)));
            JNum (inject_Z (round_half_even (peak_avg a)));
            JNum (inject_Z (round_half_even (peak_max a)))]) ].

Definition compute_load_profile (archetype_id : option string)
    (expert_mode : bool) (packs : option (list dict)) : result dict :=
  let packs := match packs with Some l => l | None => [] end in
  a <- load_totals archetype_id expert_mode packs ;;
  Ok (load_result archetype_id expert_mode a).

(** [d or fallback] for an optional dict argument. *)
Definition dict_or (d : option dict) (fallback : dict) : dict :=
  match d with
  | Some (e :: rest) => e :: rest
  | _ => fallback
  end.

Definition compute_solar_profile (city : string) (solar_wp : Q)
    (solar_db : option dict) : result dict :=
  let solar_db := dict_or solar_db solar_generation_db in
  if negb (str_truthy city) then
    Raise (ValueError "City is required for solar calculation.")
  else if negb (dict_mem solar_db city) then
    Raise (KeyError ("City '" ++ city ++ "' not found in solar_generation.json"))
  else
    let solar_city := get solar_db city in
    s <- attr_get solar_city "summer_kwh_per_kwp" (JNum 0) ;;
    summer_kwh_per_kwp <- py_float s ;;
    w <- attr_get solar_city "winter_kwh_per_kwp" (JNum 0) ;;
    winter_kwh_per_kwp <- py_float w ;;
    let kwp := solar_wp / 1000 in
    let summer_daily := summer_kwh_per_kwp * kwp in
    let winter_daily := winter_kwh_per_kwp * kwp in
    let avg_daily := summer_daily * (6 # 10) + winter_daily * (4 # 10) in
    Ok [ ("city", JStr city);
         ("wp", JNum solar_wp);
         ("kwp", JNum kwp);
         ("summer_daily_kwh", JNum (py_round summer_daily 3));
         ("winter_daily_kwh", JNum (py_round winter_daily 3));
         ("avg_daily_kwh", JNum (py_round avg_daily 3)) ].

(** The local [daily_offset_kwh] of [compute_savings_profile]. *)
Definition daily_offset_kwh (avg_kwh_consumption avg_kwh_solar : Q) : Q :=
  Qmin avg_kwh_consumption avg_kwh_solar.

(** The loop [for year in range(horizon_years)], started from [total]. *)
Definition multi_year_loop (offset price growth : Q) (years : list nat)
    (total : Q) : Q :=
  fold_left
    (fun multi_year_savings year =>
       let p := price * (1 + growth) ^ Z.of_nat year in
       multi_year_savings + offset * p * 365)
    years total.

(** [range(n)] for an integer [n]: empty when [n] is not positive. *)
Definition range (n : Z) : list nat := seq 0 (Z.to_nat n).

Definition compute_savings_profile (avg_kwh_consumption avg_kwh_solar : Q)
    (electricity_price_tl_per_kwh price_growth_rate : Q)
    (horizon_years : Z) (co2_kg_per_kwh : Q) : dict :=
  let offset := daily_offset_kwh avg_kwh_consumption avg_kwh_solar in
  let daily_co2_kg := offset * co2_kg_per_kwh in
  let year1_price := electricity_price_tl_per_kwh in
  let year1_savings := offset * year1_price * 365 in
  let multi_year_savings :=
    multi_year_loop offset electricity_price_tl_per_kwh price_growth_rate
      (range horizon_years) 0 in
  let yearly_co2 := daily_co2_kg * 365 in
  [ ("daily_offset_kwh", JNum (py_round offset 3));
    ("year1_savings_tl", JNum (py_round year1_savings 2));
    ("multi_year_savings_tl", JNum (py_round multi_year_savings 2));
    ("yearly_co2_kg", JNum (py_round yearly_co2 2));
    ("electricity_price_tl_per_kwh", JNum electricity_price_tl_per_kwh);
    ("price_growth_rate", JNum price_growth_rate);
    ("horizon_years", JNum (inject_Z horizon_years));
    ("co2_kg_per_kwh", JNum co2_kg_per_kwh) ].

(** The sum of [f y] for y = 0 .. n-1, as the savings formula is written. *)
Fixpoint sum_years (f : nat -> Q) (n : nat) : Q :=
  match n with
  | O => 0
  | S m => sum_years f m + f m
  end.

(** The keyword defaults of [compute_savings_profile]. *)
Definition default_price : Q := 31 # 10.
Definition default_growth : Q := 25 # 100.
Definition default_horizon : Z := 5.
Definition default_co2 : Q := 45 # 100.

(** *** Tier recommendation *)

(** [peak_band[2] or peak_band[1]] *)
Definition peak_basis (peak_band : band) : Q :=
  let '(_, p1, p2) := peak_band in
  if Qnonzero p2 then p2 else p1.

(** [peak_max * 1.2 if peak_max else 0.0] *)
Definition required_inverter_w (peak_band : band) : Q :=
  let peak_max := peak_basis peak_band in
  if Qnonzero peak_max then peak_max * (12 # 10) else 0.

Definition required_capacity_wh (daily_band : band) : Q :=
  let '(_, typical_kwh, _) := daily_band in
  typical_kwh * 1000.

Definition is_none (v : json) : bool :=
  match v with
  | JNull => true
  | _ => false
  end.

(** [float(capacity_wh); float(inverter_w)] under the [try]; [None] stands
    for the [continue] of the handler. *)
Definition parse_tier_numbers (capacity_wh inverter_w : json)
    : result (option (Q * Q)) :=
  try_except_type_value
    (c <- py_float capacity_wh ;;
     i <- py_float inverter_w ;;
     Ok (Some (c, i)))
    (Ok None).

(** [dict(tier_data)] followed by [setdefault("tier_id", tier_id)]. *)
Definition tier_copy (tier_id : string) (tier_data : dict) : dict :=
  setdefault tier_data "tier_id" (JStr tier_id).

(** The body of the loop over [tiers_db.items()]: [None] when the tier is
    passed over, the copy to append when it is eligible. *)
Definition tier_step (req_capacity req_inverter : Q)
    (entry : string * json) : result (option dict) :=
  let '(tier_id, tier_data) := entry in
  capacity_wh <- attr_get tier_data "capacity_wh_total" JNull ;;
  inverter_w <- attr_get tier_data "inverter_w_continuous" JNull ;;
  if (is_none capacity_wh || is_none inverter_w)%bool then Ok None
  else
    parsed <- parse_tier_numbers capacity_wh inverter_w ;;
    match parsed with
    | None => Ok None
    | Some (c, i) =>
        if (Qle_bool req_capacity c && Qle_bool req_inverter i)%bool then
          match tier_data with
          | JObj d => Ok (Some (tier_copy tier_id d))
          | _ => Raise TypeError
          end
        else Ok None
    end.

Fixpoint eligible_loop (req_capacity req_inverter : Q)
    (items : list (string * json)) (recommendations : list dict)
    : result (list dict) :=
  match items with
  | [] => Ok recommendations
  | entry :: rest =>
      r <- tier_step req_capacity req_inverter entry ;;
      eligible_loop req_capacity req_inverter rest
        (match r with
         | Some t => (recommendations ++ [t])%list
         | None => recommendations
         end)
  end.

(** Eligibility as the design states it: both numbers convert, the
    capacity covers the required capacity and the inverter the required
    inverter power. *)
Definition tier_eligible (req_capacity req_inverter : Q) (d : dict) : bool :=
  match py_float (get_default d "capacity_wh_total" JNull),
        py_float (get_default d "inverter_w_continuous" JNull) with
  | Ok c, Ok i => (Qle_bool req_capacity c && Qle_bool req_inverter i)%bool
  | _, _ => false
  end.

Definition is_dict (v : json) : bool :=
  match v with
  | JObj _ => true
  | _ => false
  end.

(** Every entry of a catalog is a record. *)
Definition all_dicts (db : dict) : Prop :=
  Forall (fun e => is_dict (snd e) = true) db.

(** The copies of the eligible entries, in catalog order. *)
Definition eligible_copies (req_capacity req_inverter : Q) (db : dict)
    : list dict :=
  flat_map
    (fun e =>
       match snd e with
       | JObj d =>
           if tier_eligible req_capacity req_inverter d
           then [tier_copy (fst e) d] else []
       | _ => []
       end)
    db.

(** *** Sorting with a key, as [list.sort] and [sorted] do: the keys are
    computed first, in order, and the sort is stable, also when reversed. *)

Fixpoint with_keys {A : Type} (key : A -> result Q) (l : list A)
    : result (list (Q * A)) :=
  match l with
  | [] => Ok []
  | x :: rest =>
      k <- key x ;;
      ks <- with_keys key rest ;;
      Ok ((k, x) :: ks)
  end.

(** [before reverse a b]: an element of key [a] may stand before one of key [b]. *)
Definition before (reverse : bool) (a b : Q) : bool :=
  if reverse then Qle_bool b a else Qle_bool a b.

Definition key_order (reverse : bool) (a b : Q) : Prop :=
  if reverse then b <= a else a <= b.

(** Two elements in the order of their keys. *)
Definition in_key_order {A : Type} (key : A -> result Q) (reverse : bool)
    (x y : A) : Prop :=
  exists a b, key x = Ok a /\ key y = Ok b /\ key_order reverse a b.

Fixpoint insert_keyed {A : Type} (reverse : bool) (x : Q * A)
    (l : list (Q * A)) : list (Q * A) :=
  match l with
  | [] => [x]
  | y :: rest =>
      if before reverse (fst x) (fst y) then x :: y :: rest
      else y :: insert_keyed reverse x rest
  end.

Definition sort_keyed {A : Type} (reverse : bool) (l : list (Q * A))
    : list (Q * A) :=
  fold_right (insert_keyed reverse) [] l.

Definition sorted_by {A : Type} (key : A -> result Q) (reverse : bool)
    (l : list A) : result (list A) :=
  ks <- with_keys key l ;;
  Ok (map snd (sort_keyed reverse ks)).

(** [lambda t: float(t.get("capacity_wh_total", 0))] *)
Definition capacity_key (t : dict) : result Q :=
  py_float (get_default t "capacity_wh_total" (JNum 0)).


(** [lambda kv: float(kv[1].get("capacity_wh_total", 0))] *)
Definition item_capacity_key (kv : string * json) : result Q :=
  c <- attr_get (snd kv) "capacity_wh_total" (JNum 0) ;;
  py_float c.

(** [dict(x)] where it is applied to a catalog entry.  Every entry that
    reaches it has answered [get] before, so it is a dict; the other
    branch is never taken. *)
Definition py_dict (v : json) : result dict :=
  match v with
  | JObj d => Ok d
  | _ => Raise TypeError
  end.

(** The branch [if not recommendations]. *)
Definition fallback (tiers_db : dict) : result (list dict) :=
  if dict_mem tiers_db "tier_2_comfort" then
    d <- py_dict (get tiers_db "tier_2_comfort") ;;
    Ok [tier_copy "tier_2_comfort" d]
  else
    sorted_all <- sorted_by item_capacity_key true tiers_db ;;
    match sorted_all with
    | (tid, tdata) :: _ =>
        d <- py_dict tdata ;;
        Ok [tier_copy tid d]
    | [] => Ok []
    end.

Definition zero_list : json := JArr [JNum 0; JNum 0; JNum 0].

(** The list [recommendations] after the loop and the sort, before the
    test [if not recommendations]. *)
Definition eligible_recommendations (profile : dict) (tiers_db : dict)
    : result (list dict) :=
  daily_band <- _safe_band (get_default profile "daily_kwh_band" zero_list) ;;
  peak_band <- _safe_band (get_default profile "peak_power_band_w" zero_list) ;;
  let req_capacity := required_capacity_wh daily_band in
  let req_inverter := required_inverter_w peak_band in
  recommendations <- eligible_loop req_capacity req_inverter tiers_db [] ;;
  sorted_by capacity_key false recommendations.

Definition recommend_ecoflow_tiers (profile : dict) (tiers_db : option dict)
    : result (list dict) :=
  let tiers_db := dict_or tiers_db ecoflow_tiers_db in
  recommendations <- eligible_recommendations profile tiers_db ;;
  match recommendations with
  | [] => fallback tiers_db
  | _ :: _ => Ok recommendations
  end.

(** *** The orchestrator *)

Definition legacy_pack (key : string) : dict :=
  [ ("group", JStr "ac1p"); ("key", JStr key); ("usage_index", JNum 1) ].

Definition resolve_packs (packs : option (list string))
    (rich_packs : option (list dict)) : list dict :=
  match rich_packs with
  | Some (p :: ps) => p :: ps
  | _ =>
      match packs with
      | Some ks => map legacy_pack ks
      | None => []
      end
  end.

(** [d[k]] *)
Definition subscript (d : dict) (k : string) : result json :=
  match dict_get d k with
  | Some v => Ok v
  | None => Raise (KeyError k)
  end.

(** [v[i]] on a list. *)
Definition index (v : json) (i : nat) : result json :=
  match v with
  | JArr l =>
      match nth_error l i with
      | Some x => Ok x
      | None => Raise IndexError
      end
  | _ => Raise TypeError
  end.

(** [city and solar_wp and solar_wp > 0] *)
Definition solar_requested (city : option string) (solar_wp : option Q)
    : bool :=
  (opt_str_truthy city &&
   match solar_wp with
   | Some w => Qnonzero w && Qlt_bool 0 w
   | None => false
   end)%bool.

Definition calculate_energy_profile (archetype_id : option string)
    (packs : option (list string)) (expert_mode : bool)
    (rich_packs : option (list dict)) (city : option string)
    (solar_wp : option Q) : result dict :=
  let resolved_packs := resolve_packs packs rich_packs in
  load_profile <-
    compute_load_profile archetype_id expert_mode (Some resolved_packs) ;;
  let profile :=
    dict_set load_profile "selected_packs"
      (JArr (map (fun p => get p "key") resolved_packs)) in
  if solar_requested city solar_wp then
    let c := match city with Some c => c | None => "" end in
    let w := match solar_wp with Some w => w | None => 0 end in
    solar_profile <- compute_solar_profile c w None ;;
    b <- subscript load_profile "daily_kwh_band" ;;
    consumption <- index b 1 ;;
    solar <- subscript solar_profile "avg_daily_kwh" ;;
    avg_kwh_consumption <- py_float consumption ;;
    avg_kwh_solar <- py_float solar ;;
    let savings_profile :=
      compute_savings_profile avg_kwh_consumption avg_kwh_solar
        default_price default_growth default_horizon default_co2 in
    Ok (dict_set (dict_set profile "solar" (JObj solar_profile))
                 "savings" (JObj savings_profile))
  else Ok profile.

(** * Properties *)

(** ** Rounding *)

Lemma round_half_even_comp (p q : Q) :
  p == q -> round_half_even p = round_half_even q.
Proof.
  intros E. unfold round_half_even.
  assert (F : Qfloor p = Qfloor q) by (rewrite E; reflexivity).
  rewrite F.
  assert (C : Qcompare (p - inject_Z (Qfloor q)) (1 # 2)
              = Qcompare (q - inject_Z (Qfloor q)) (1 # 2))
    by (rewrite E; reflexivity).
  rewrite C. reflexivity.
Qed.

Lemma round_half_even_bounds (q : Q) :
  (Qfloor q <= round_half_even q <= Qfloor q + 1)%Z.
Proof.
  unfold round_half_even.
  destruct (Qcompare (q - inject_Z (Qfloor q)) (1 # 2));
    try destruct (Z.even (Qfloor q)); lia.
Qed.

Lemma round_half_even_mono (p q : Q) :
  p <= q -> (round_half_even p <= round_half_even q)%Z.
Proof.
  intros L.
  destruct (Qle_lt_or_eq _ _ L) as [Lt | E];
    [| rewrite (round_half_even_comp _ _ E); lia].
  pose proof (Qfloor_resp_le _ _ L) as F.
  destruct (Z.eq_dec (Qfloor p) (Qfloor q)) as [Same | Diff].
  - unfold round_half_even. rewrite Same.
    destruct (Qcompare_spec (p - inject_Z (Qfloor q)) (1 # 2)) as [Hp | Hp | Hp];
      destruct (Qcompare_spec (q - inject_Z (Qfloor q)) (1 # 2)) as [Hq | Hq | Hq];
      try destruct (Z.even (Qfloor q)); try lia; exfalso; lra.
  - assert (S : (Qfloor p + 1 <= Qfloor q)%Z) by lia.
    pose proof (round_half_even_bounds p).
    pose proof (round_half_even_bounds q). lia.
Qed.

Lemma scale_pos (n : nat) : 0 < inject_Z (10 ^ Z.of_nat n).
Proof.
  change 0 with (inject_Z 0). rewrite <- Zlt_Qlt.
  apply Z.pow_pos_nonneg; lia.
Qed.

Lemma py_round_comp (p q : Q) (n : nat) : p == q -> py_round p n = py_round q n.
Proof.
  intros E. unfold py_round.
  set (s := inject_Z (10 ^ Z.of_nat n)).
  rewrite (round_half_even_comp (p * s) (q * s)); [reflexivity |].
  rewrite E. reflexivity.
Qed.

Lemma py_round_mono (p q : Q) (n : nat) : p <= q -> py_round p n <= py_round q n.
Proof.
  intros L. unfold py_round.
  pose proof (scale_pos n) as P.
  set (s := inject_Z (10 ^ Z.of_nat n)) in *.
  assert (M : (round_half_even (p * s) <= round_half_even (q * s))%Z).
  { apply round_half_even_mono. apply Qmult_le_compat_r; lra. }
  rewrite Zle_Qle in M.
  unfold Qdiv. apply Qmult_le_compat_r; [exact M |].
  apply Qlt_le_weak, Qinv_lt_0_compat, P.
Qed.

Lemma Qlt_bool_iff (a b : Q) : Qlt_bool a b = true <-> a < b.
Proof.
  unfold Qlt_bool. rewrite negb_true_iff.
  destruct (Qle_bool b a) eqn:E.
  - apply Qle_bool_iff in E. split; [discriminate | intros; exfalso; lra].
  - split; [intros _ | reflexivity].
    apply Qnot_le_lt. intros L. apply Qle_bool_iff in L. congruence.
Qed.



(** ** The consistency block orders the energy band *)

Lemma consistency_ordered (a : acc) (lo ty hi : Q) :
  consistency a = (lo, ty, hi) -> lo <= ty /\ ty <= hi.
Proof.
  unfold consistency.
  set (max1 := if (Qeq_bool (max_kwh a) 0 && Qlt_bool 0 (avg_kwh a))%bool
               then avg_kwh a else max_kwh a).
  set (min1 := Qmin (Qmin (min_kwh a) (avg_kwh a)) max1).
  intros E.
  assert (M : min1 <= avg_kwh a).
  { unfold min1.
    eapply Qle_trans; [apply Q.le_min_l | apply Q.le_min_r]. }
  destruct (Qlt_bool (avg_kwh a) min1) eqn:B.
  - apply Qlt_bool_iff in B. exfalso. lra.
  - inversion E; subst. split; [exact M |].
    eapply Qle_trans; [| apply Q.le_max_l]. apply Q.le_max_r.
Qed.

(** C1 (amended) -- For every input on which [compute_load_profile] returns,
    the returned [daily_kwh_band] satisfies min <= typical <= max.  (The
    peak band is the rounded running maxima and is not reordered.) *)
Theorem daily_kwh_band_ordered
    (archetype_id : option string) (expert_mode : bool)
    (packs : option (list dict)) (profile : dict) :
  compute_load_profile archetype_id expert_mode packs = Ok profile ->
  band_ordered (get profile "daily_kwh_band").
Proof.
  unfold compute_load_profile.
  destruct (load_totals archetype_id expert_mode _) as [a | e]; simpl;
    [| discriminate].
  intros E. inversion E; subst; clear E.
  unfold load_result.
  destruct (consistency a) as [[lo ty] hi] eqn:C.
  apply consistency_ordered in C. destruct C as [L H].
  cbn. split; apply py_round_mono; assumption.
Qed.

(** ** [_safe_band] never raises *)

Lemma py_float_raises (v : json) (e : exn) :
  py_float v = Raise e -> e = TypeError \/ exists m, e = ValueError m.
Proof.
  destruct v; simpl; try discriminate;
    try (intros E; inversion E; left; reflexivity).
  destruct (str_to_float s); [discriminate |].
  intros E; inversion E. right. eexists. reflexivity.
Qed.

(** The band of a three-element list whose elements all convert. *)
Lemma safe_band_converts (v0 v1 v2 : json) (m0 m1 m2 : Q) :
  py_float v0 = Ok m0 -> py_float v1 = Ok m1 -> py_float v2 = Ok m2 ->
  _safe_band (JArr [v0; v1; v2]) = Ok (m0, m1, m2).
Proof.
  intros E0 E1 E2. unfold _safe_band. rewrite E0, E1, E2. reflexivity.
Qed.

(** A three-element list with an element that does not convert. *)
Lemma safe_band_unconvertible (v0 v1 v2 : json) :
  (exists e, py_float v0 = Raise e \/ py_float v1 = Raise e
             \/ py_float v2 = Raise e) ->
  _safe_band (JArr [v0; v1; v2]) = Ok band_zero.
Proof.
  intros [e H]. unfold _safe_band.
  destruct (py_float v0) as [m0 | e0] eqn:E0; simpl.
  - destruct (py_float v1) as [m1 | e1] eqn:E1; simpl.
    + destruct (py_float v2) as [m2 | e2] eqn:E2; simpl.
      * destruct H as [H | [H | H]]; discriminate.
      * destruct (py_float_raises _ _ E2) as [-> | [m ->]]; reflexivity.
    + destruct (py_float_raises _ _ E1) as [-> | [m ->]]; reflexivity.
  - destruct (py_float_raises _ _ E0) as [-> | [m ->]]; reflexivity.
Qed.

Lemma safe_band_not_three (v : json) :
  three_list v = false -> _safe_band v = Ok band_zero.
Proof.
  destruct v as [| | | | l |]; try reflexivity.
  destruct l as [| v0 [| v1 [| v2 [| v3 l]]]]; try reflexivity.
  discriminate.
Qed.

Lemma safe_band_total (v : json) : exists b, _safe_band v = Ok b.
Proof.
  destruct (three_list v) eqn:T.
  - destruct v as [| | | | l |]; try discriminate.
    destruct l as [| v0 [| v1 [| v2 [| v3 l]]]]; try discriminate.
    destruct (py_float v0) as [m0 | e0] eqn:E0;
      [| eexists; apply safe_band_unconvertible; eauto].
    destruct (py_float v1) as [m1 | e1] eqn:E1;
      [| eexists; apply safe_band_unconvertible; eauto].
    destruct (py_float v2) as [m2 | e2] eqn:E2;
      [| eexists; apply safe_band_unconvertible; eauto].
    eexists. apply safe_band_converts; eassumption.
  - eexists. apply safe_band_not_three, T.
Qed.

(** ** One pack selection *)


Lemma known_group_false (g : string) :
  known_group g = false ->
  str_in g ["ac1p"; "ac"; "ac_1p"] = false /\
  str_in g ["ac3p"; "ac_3p"] = false /\
  str_in g ["dc12"; "dc12v"] = false /\
  str_in g ["dc24"; "dc24v"] = false /\
  str_in g ["dc48"; "dc48v"] = false.
Proof.
  unfold known_group, str_in. simpl. intros H.
  repeat (apply orb_false_elim in H; destruct H as [?E H]).
  repeat split; repeat (apply orb_false_intro; [assumption |]); reflexivity.
Qed.

Lemma get_pack_db_unknown (group : json) (g : string) :
  group_name group = Ok g -> known_group g = false ->
  _get_pack_db group = Raise (KeyError ("Unknown pack group: " ++ g)).
Proof.
  intros N K. unfold _get_pack_db. rewrite N. cbn [bind].
  destruct (known_group_false g K) as (E1 & E2 & E3 & E4 & E5).
  rewrite E1, E2, E3, E4, E5. reflexivity.
Qed.

Lemma get_pack_db_known (group : json) (g : string) :
  group_name group = Ok g -> known_group g = true ->
  exists pack_db, _get_pack_db group = Ok pack_db.
Proof.
  intros N K. unfold _get_pack_db. rewrite N. cbn [bind].
  destruct (str_in g ["ac1p"; "ac"; "ac_1p"]) eqn:E1; [eauto |].
  destruct (str_in g ["ac3p"; "ac_3p"]) eqn:E2; [eauto |].
  destruct (str_in g ["dc12"; "dc12v"]) eqn:E3; [eauto |].
  destruct (str_in g ["dc24"; "dc24v"]) eqn:E4; [eauto |].
  destruct (str_in g ["dc48"; "dc48v"]) eqn:E5; [eauto |].
  exfalso. revert K E1 E2 E3 E4 E5. unfold known_group, str_in. simpl.
  repeat (destruct (String.eqb g _); simpl; try discriminate).
Qed.

Lemma pack_loop_app (a : acc) (pre post : list dict) :
  pack_loop a (pre ++ post) = (a' <- pack_loop a pre ;; pack_loop a' post).
Proof.
  revert a. induction pre as [| item pre IH]; intros a; simpl; [reflexivity |].
  destruct (pack_step a item) as [a1 | e]; simpl; [apply IH | reflexivity].
Qed.

Lemma load_totals_app (archetype_id : option string) (expert_mode : bool)
    (pre post : list dict) :
  load_totals archetype_id expert_mode (pre ++ post)
  = (a <- load_totals archetype_id expert_mode pre ;; pack_loop a post).
Proof.
  unfold load_totals.
  destruct (if (negb expert_mode && opt_str_truthy archetype_id)%bool
            then _ else _) as [a0 | e]; simpl; [| reflexivity].
  apply pack_loop_app.
Qed.

Lemma key_absent_skips (pack_db : dict) (key : json) :
  key_absent pack_db key ->
  exists pack, get_dyn pack_db key = Ok pack /\ truthy pack = false.
Proof.
  intros [-> | (s & -> & N)]; simpl.
  - eexists; split; reflexivity.
  - unfold get. rewrite N. eexists; split; reflexivity.
Qed.

(** C6 -- A pack selection whose group is not one of the known pack groups
    makes [compute_load_profile] raise the Not-Found error [KeyError]; a
    selection whose group is known and whose key is absent from that group's
    catalog is skipped: no error, the totals are unchanged, and the result is
    the one computed without that selection. *)
Theorem unknown_group_raises_absent_key_skipped
    (archetype_id : option string) (expert_mode : bool)
    (pre rest : list dict) (item : dict) (a : acc) (u : Z) (g : string) :
  load_totals archetype_id expert_mode pre = Ok a ->
  py_int (get_default item "usage_index" (JNum 1)) = Ok u ->
  group_name (get_default item "group" (JStr "ac1p")) = Ok g ->
  (known_group g = false ->
   compute_load_profile archetype_id expert_mode (Some (pre ++ item :: rest)%list)
   = Raise (KeyError ("Unknown pack group: " ++ g)))
  /\
  (known_group g = true ->
   exists pack_db,
     _get_pack_db (get_default item "group" (JStr "ac1p")) = Ok pack_db /\
     (key_absent pack_db (get item "key") ->
      pack_step a item = Ok a /\
      compute_load_profile archetype_id expert_mode
        (Some (pre ++ item :: rest)%list)
      = compute_load_profile archetype_id expert_mode (Some (pre ++ rest)%list))).
Proof.
  intros T U N. split; intros K.
  - unfold compute_load_profile. rewrite load_totals_app, T. cbn [bind pack_loop].
    unfold pack_step. rewrite U. cbn [bind].
    rewrite (get_pack_db_unknown _ _ N K). reflexivity.
  - destruct (get_pack_db_known _ _ N K) as [pack_db G].
    exists pack_db. split; [exact G |]. intros A.
    destruct (key_absent_skips _ _ A) as (pack & L & F).
    assert (S : pack_step a item = Ok a).
    { unfold pack_step. rewrite U. cbn [bind]. rewrite G. cbn [bind].
      rewrite L. cbn [bind]. rewrite F. reflexivity. }
    split; [exact S |].
    unfold compute_load_profile. rewrite !load_totals_app, T.
    cbn [bind pack_loop]. rewrite S. reflexivity.
Qed.

(** ** Required inverter power *)


(** ** Solar profile *)

Lemma str_truthy_false (s : string) : str_truthy s = false <-> s = "".
Proof.
  unfold str_truthy. rewrite negb_false_iff. apply String.eqb_eq.
Qed.

Lemma str_truthy_true (s : string) : str_truthy s = true <-> s <> "".
Proof.
  unfold str_truthy. rewrite negb_true_iff. apply String.eqb_neq.
Qed.


(** ** Savings profile *)

Lemma multi_year_loop_sum (offset price growth : Q) (n : nat) :
  multi_year_loop offset price growth (seq 0 n) 0
  == sum_years (fun y => offset * price * (1 + growth) ^ Z.of_nat y * 365) n.
Proof.
  induction n as [| n IH]; [reflexivity |].
  rewrite seq_S. unfold multi_year_loop in *. rewrite fold_left_app.
  cbn [fold_left sum_years Nat.add]. rewrite IH. ring.
Qed.


(** ** Dictionaries *)

Lemma dict_get_app_some (d e : dict) (k : string) (v : json) :
  dict_get d k = Some v -> dict_get (d ++ e)%list k = Some v.
Proof.
  induction d as [| [k' v'] d IH]; simpl; [discriminate |].
  destruct (String.eqb k k'); [trivial | exact IH].
Qed.

Lemma dict_get_app_none (d e : dict) (k : string) :
  dict_get d k = None -> dict_get (d ++ e)%list k = dict_get e k.
Proof.
  induction d as [| [k' v'] d IH]; simpl; [trivial |].
  destruct (String.eqb k k'); [discriminate | exact IH].
Qed.

Lemma dict_get_setdefault_other (d : dict) (k k' : string) (v : json) :
  k' <> k -> dict_get (setdefault d k v) k' = dict_get d k'.
Proof.
  intros N. unfold setdefault. destruct (dict_mem d k); [reflexivity |].
  destruct (dict_get d k') as [x |] eqn:E.
  - apply dict_get_app_some, E.
  - rewrite (dict_get_app_none _ _ _ E). simpl.
    apply String.eqb_neq in N. rewrite N. reflexivity.
Qed.

Lemma get_default_tier_copy (tid : string) (d : dict) (k : string) (v : json) :
  k <> "tier_id" ->
  get_default (tier_copy tid d) k v = get_default d k v.
Proof.
  intros N. unfold get_default, tier_copy.
  rewrite dict_get_setdefault_other by exact N. reflexivity.
Qed.

Lemma dict_get_in (d : dict) (k : string) (v : json) :
  dict_get d k = Some v -> In (k, v) d.
Proof.
  induction d as [| [k' v'] d IH]; simpl; [discriminate |].
  destruct (String.eqb k k') eqn:E.
  - apply String.eqb_eq in E. intros H; inversion H; subst. left; reflexivity.
  - intros H. right. exact (IH H).
Qed.

(** ** The loop over the tier catalog *)

Lemma parse_tier_numbers_total (capacity_wh inverter_w : json) :
  parse_tier_numbers capacity_wh inverter_w
  = Ok (match py_float capacity_wh, py_float inverter_w with
        | Ok c, Ok i => Some (c, i)
        | _, _ => None
        end).
Proof.
  unfold parse_tier_numbers.
  destruct (py_float capacity_wh) as [c | e] eqn:C; cbn [bind].
  - destruct (py_float inverter_w) as [i | e] eqn:I; cbn [bind]; [reflexivity |].
    destruct (py_float_raises _ _ I) as [-> | [m ->]]; reflexivity.
  - destruct (py_float_raises _ _ C) as [-> | [m ->]]; reflexivity.
Qed.

Lemma py_float_none (v : json) : is_none v = true -> py_float v = Raise TypeError.
Proof. destruct v; try discriminate. reflexivity. Qed.

Lemma tier_step_dict (rc ri : Q) (tid : string) (d : dict) :
  tier_step rc ri (tid, JObj d)
  = Ok (if tier_eligible rc ri d then Some (tier_copy tid d) else None).
Proof.
  unfold tier_step, tier_eligible. cbn [attr_get bind].
  set (cap := get_default d "capacity_wh_total" JNull).
  set (inv := get_default d "inverter_w_continuous" JNull).
  rewrite parse_tier_numbers_total. cbn [bind].
  destruct (is_none cap) eqn:NC; cbn [orb].
  - rewrite (py_float_none _ NC). reflexivity.
  - destruct (is_none inv) eqn:NI.
    + rewrite (py_float_none _ NI). destruct (py_float cap); reflexivity.
    + destruct (py_float cap) as [c | e]; [| reflexivity].
      destruct (py_float inv) as [i | e]; [| reflexivity].
      destruct (Qle_bool rc c && Qle_bool ri i)%bool; reflexivity.
Qed.

Lemma eligible_loop_dicts (rc ri : Q) (db : dict) (recs : list dict) :
  all_dicts db ->
  eligible_loop rc ri db recs = Ok (recs ++ eligible_copies rc ri db)%list.
Proof.
  intros A. revert recs.
  induction A as [| [tid v] db V A IH]; intros recs; cbn [eligible_loop].
  - cbn [eligible_copies flat_map]. rewrite app_nil_r. reflexivity.
  - destruct v; try discriminate. rewrite tier_step_dict.
    unfold eligible_copies. cbn [flat_map fst snd]. fold (eligible_copies rc ri db). cbn [bind fst snd].
    rewrite IH. destruct (tier_eligible rc ri d); cbn [app].
    + rewrite <- app_assoc. reflexivity.
    + reflexivity.
Qed.


Lemma eligible_copies_in (rc ri : Q) (db : dict) (t : dict) :
  In t (eligible_copies rc ri db) <->
  exists tid d, In (tid, JObj d) db /\ tier_eligible rc ri d = true
                /\ t = tier_copy tid d.
Proof.
  unfold eligible_copies. rewrite in_flat_map. split.
  - intros ([tid v] & I & H). cbn [fst snd] in H.
    destruct v; try contradiction.
    destruct (tier_eligible rc ri d) eqn:E; [| contradiction].
    destruct H as [<- | []]. eauto.
  - intros (tid & d & I & E & ->). exists (tid, JObj d). split; [exact I |].
    cbn [fst snd]. rewrite E. left; reflexivity.
Qed.


(** ** Sorting with a key *)

Section Sorting.

Context {A : Type}.
Variable key : A -> result Q.
Variable reverse : bool.

Let R (x y : Q * A) : Prop := key_order reverse (fst x) (fst y).

Lemma before_iff (a b : Q) : before reverse a b = true <-> key_order reverse a b.
Proof. unfold before, key_order. destruct reverse; apply Qle_bool_iff. Qed.

Lemma key_order_total (a b : Q) :
  before reverse a b = false -> key_order reverse b a.
Proof.
  unfold before, key_order. intros F.
  destruct reverse;
    apply Qlt_le_weak, Qnot_le_lt; intros L;
    apply Qle_bool_iff in L; congruence.
Qed.

Lemma key_order_trans (a b c : Q) :
  key_order reverse a b -> key_order reverse b c -> key_order reverse a c.
Proof. unfold key_order. destruct reverse; intros; lra. Qed.

Lemma insert_keyed_perm (x : Q * A) (l : list (Q * A)) :
  Permutation (insert_keyed reverse x l) (x :: l).
Proof.
  induction l as [| y l IH]; simpl; [reflexivity |].
  destruct (before reverse (fst x) (fst y)); [reflexivity |].
  rewrite IH. apply perm_swap.
Qed.

Lemma sort_keyed_perm (l : list (Q * A)) : Permutation (sort_keyed reverse l) l.
Proof.
  induction l as [| x l IH]; simpl; [reflexivity |].
  rewrite insert_keyed_perm. constructor. exact IH.
Qed.

Lemma insert_keyed_sorted (x : Q * A) (l : list (Q * A)) :
  StronglySorted R l -> StronglySorted R (insert_keyed reverse x l).
Proof.
  induction 1 as [| y l S IH F]; simpl.
  - constructor; constructor.
  - destruct (before reverse (fst x) (fst y)) eqn:B.
    + apply before_iff in B. constructor.
      * constructor; assumption.
      * constructor; [exact B |].
        eapply Forall_impl; [| exact F].
        intros z Hz. eapply key_order_trans; [exact B | exact Hz].
    + apply key_order_total in B. constructor; [exact IH |].
      eapply Permutation_Forall;
        [symmetry; apply insert_keyed_perm |].
      constructor; assumption.
Qed.

Lemma sort_keyed_sorted (l : list (Q * A)) :
  StronglySorted R (sort_keyed reverse l).
Proof.
  induction l as [| x l IH]; simpl; [constructor |].
  apply insert_keyed_sorted, IH.
Qed.

Lemma with_keys_ok (l : list A) (ks : list (Q * A)) :
  with_keys key l = Ok ks ->
  map snd ks = l /\ Forall (fun p => key (snd p) = Ok (fst p)) ks.
Proof.
  revert ks. induction l as [| x l IH]; simpl; intros ks E.
  - inversion E. split; constructor.
  - destruct (key x) as [k | e] eqn:K; simpl in E; [| discriminate].
    destruct (with_keys key l) as [ks' | e]; simpl in E; [| discriminate].
    inversion E; subst. destruct (IH ks' eq_refl) as [M F].
    split; [simpl; congruence |]. constructor; assumption.
Qed.

Lemma with_keys_total (l : list A) :
  Forall (fun x => exists k, key x = Ok k) l ->
  exists ks, with_keys key l = Ok ks.
Proof.
  induction 1 as [| x l [k K] F [ks IH]]; simpl.
  - eauto.
  - rewrite K, IH. simpl. eauto.
Qed.

Lemma keyed_sorted_map (ks : list (Q * A)) :
  Forall (fun p => key (snd p) = Ok (fst p)) ks ->
  StronglySorted R ks ->
  StronglySorted (in_key_order key reverse) (map snd ks).
Proof.
  intros K S. induction S as [| p ks S IH F]; simpl; [constructor |].
  inversion K as [| ? ? Kp Kks]; subst.
  constructor; [apply IH, Kks |].
  apply Forall_map.
  rewrite Forall_forall in *. intros q I.
  exists (fst p), (fst q). repeat split; auto. apply (F q I).
Qed.

(** [sorted] and [list.sort] return a permutation in the order of the keys. *)
Lemma sorted_by_spec (l res : list A) :
  sorted_by key reverse l = Ok res ->
  Permutation res l /\ StronglySorted (in_key_order key reverse) res.
Proof.
  unfold sorted_by. destruct (with_keys key l) as [ks | e] eqn:W; simpl;
    [| discriminate].
  intros E; inversion E; subst; clear E.
  destruct (with_keys_ok _ _ W) as [M F]. split.
  - rewrite <- M. apply Permutation_map, sort_keyed_perm.
  - apply keyed_sorted_map; [| apply sort_keyed_sorted].
    eapply Permutation_Forall; [symmetry; apply sort_keyed_perm | exact F].
Qed.

Lemma sorted_by_total (l : list A) :
  Forall (fun x => exists k, key x = Ok k) l ->
  exists res, sorted_by key reverse l = Ok res.
Proof.
  intros F. destruct (with_keys_total _ F) as [ks W].
  unfold sorted_by. rewrite W. simpl. eauto.
Qed.

End Sorting.

(** ** The eligible tiers *)

Lemma capacity_key_parsed (tid : string) (d : dict) (c : Q) :
  py_float (get_default d "capacity_wh_total" JNull) = Ok c ->
  capacity_key (tier_copy tid d) = Ok c.
Proof.
  unfold capacity_key. rewrite get_default_tier_copy by discriminate.
  unfold get_default. destruct (dict_get d "capacity_wh_total"); [trivial |].
  discriminate.
Qed.

Lemma capacity_key_eligible (rc ri : Q) (tid : string) (d : dict) :
  tier_eligible rc ri d = true -> exists c, capacity_key (tier_copy tid d) = Ok c.
Proof.
  unfold tier_eligible.
  destruct (py_float (get_default d "capacity_wh_total" JNull)) as [c | e] eqn:C;
    [| discriminate].
  intros _. exists c. apply capacity_key_parsed, C.
Qed.

Lemma eligible_recommendations_spec (profile tiers_db : dict) :
  all_dicts tiers_db ->
  exists daily peak recs,
    _safe_band (get_default profile "daily_kwh_band" zero_list) = Ok daily /\
    _safe_band (get_default profile "peak_power_band_w" zero_list) = Ok peak /\
    eligible_recommendations profile tiers_db = Ok recs /\
    Permutation recs
      (eligible_copies (required_capacity_wh daily) (required_inverter_w peak)
                       tiers_db) /\
    StronglySorted (in_key_order capacity_key false) recs.
Proof.
  intros D.
  destruct (safe_band_total (get_default profile "daily_kwh_band" zero_list))
    as [daily Ed].
  destruct (safe_band_total (get_default profile "peak_power_band_w" zero_list))
    as [peak Ep].
  set (rc := required_capacity_wh daily). set (ri := required_inverter_w peak).
  destruct (sorted_by_total capacity_key false (eligible_copies rc ri tiers_db))
    as [recs S].
  { apply Forall_forall. intros t I. apply eligible_copies_in in I.
    destruct I as (tid & d & _ & E & ->). eapply capacity_key_eligible, E. }
  exists daily, peak, recs. repeat split; try assumption.
  - unfold eligible_recommendations. rewrite Ed, Ep. cbn [bind].
    rewrite eligible_loop_dicts by exact D. cbn [bind app]. exact S.
  - apply (sorted_by_spec _ _ _ _ S).
  - apply (sorted_by_spec _ _ _ _ S).
Qed.


(** ** The fallback *)

(** C2 -- On the non-empty catalog [null_capacity_tiers], whose only tier has
    a null capacity_wh_total, [recommend_ecoflow_tiers] raises [TypeError]
    for every profile: the eligibility loop passes the tier over, and the
    sort key of the fallback applies [float] to the null capacity. *)
Theorem fallback_raises_on_null_capacity (profile : dict) :
  recommend_ecoflow_tiers profile (Some null_capacity_tiers) = Raise TypeError.
Proof.
  unfold recommend_ecoflow_tiers, eligible_recommendations.
  destruct (safe_band_total (get_default profile "daily_kwh_band" zero_list))
    as [daily ->].
  destruct (safe_band_total (get_default profile "peak_power_band_w" zero_list))
    as [peak ->].
  reflexivity.
Qed.


(** With the default tier in the catalog the fallback returns it alone. *)
Lemma fallback_default_tier (db d : dict) :
  dict_get db "tier_2_comfort" = Some (JObj d) ->
  fallback db = Ok [tier_copy "tier_2_comfort" d].
Proof.
  intros G. unfold fallback, dict_mem, get. rewrite G. reflexivity.
Qed.

(** Without it, and when every capacity converts, the fallback returns
    alone a tier of the largest capacity. *)
Lemma fallback_largest_tier (db : dict) :
  all_dicts db ->
  Forall (fun e => exists c, item_capacity_key e = Ok c) db ->
  db <> [] ->
  dict_get db "tier_2_comfort" = None ->
  exists tid d c,
    fallback db = Ok [tier_copy tid d] /\
    In (tid, JObj d) db /\
    item_capacity_key (tid, JObj d) = Ok c /\
    forall e c', In e db -> item_capacity_key e = Ok c' -> c' <= c.
Proof.
  intros D K N G. unfold fallback, dict_mem. rewrite G.
  destruct (sorted_by_total item_capacity_key true db K) as [sorted S].
  rewrite S. cbn [bind].
  destruct (sorted_by_spec _ _ _ _ S) as [P O].
  destruct sorted as [| [tid tdata] rest].
  - apply Permutation_nil in P. congruence.
  - assert (I : In (tid, tdata) db)
      by (apply (Permutation_in _ P); left; reflexivity).
    unfold all_dicts in D. rewrite Forall_forall in D, K.
    pose proof (D _ I) as Dd. cbn in Dd.
    destruct tdata as [| | | | | d]; try discriminate.
    destruct (K _ I) as [c Kc].
    exists tid, d, c. repeat split; try assumption.
    intros e c' Ie Ke.
    apply (Permutation_in _ (Permutation_sym P)) in Ie.
    destruct Ie as [<- | Ie].
    + rewrite Kc in Ke. inversion Ke. apply Qle_refl.
    + apply StronglySorted_inv in O. destruct O as [_ F].
      rewrite Forall_forall in F. destruct (F _ Ie) as (a & b & Ka & Kb & L).
      rewrite Kc in Ka. rewrite Ke in Kb. inversion Ka; inversion Kb; subst.
      exact L.
Qed.


(** With no eligible tier the recommendation is what the fallback gives. *)
Lemma recommend_falls_back (profile : dict) (tiers_db : option dict)
    (daily peak : band) :
  let db := dict_or tiers_db ecoflow_tiers_db in
  all_dicts db ->
  _safe_band (get_default profile "daily_kwh_band" zero_list) = Ok daily ->
  _safe_band (get_default profile "peak_power_band_w" zero_list) = Ok peak ->
  eligible_copies (required_capacity_wh daily) (required_inverter_w peak) db
  = [] ->
  recommend_ecoflow_tiers profile tiers_db = fallback db.
Proof.
  intros db D Ed Ep N.
  destruct (eligible_recommendations_spec profile db D)
    as (daily' & peak' & recs & Ed' & Ep' & E & P & _).
  rewrite Ed in Ed'. rewrite Ep in Ep'.
  inversion Ed'; inversion Ep'; subst daily' peak'.
  rewrite N in P. apply Permutation_sym, Permutation_nil in P. subst recs.
  unfold recommend_ecoflow_tiers. fold db. rewrite E. reflexivity.
Qed.

(** ** The orchestrator and missing identifiers *)

Lemma load_totals_no_archetype (archetype_id : option string)
    (expert_mode : bool) (packs : list dict) :
  opt_str_truthy archetype_id = false ->
  load_totals archetype_id expert_mode packs = pack_loop acc_zero packs.
Proof.
  intros M. unfold load_totals. rewrite M, andb_false_r. reflexivity.
Qed.

(** C9 (amended) -- [calculate_energy_profile] raises no error for a missing
    identifier.  With a missing archetype identifier the baseline is skipped
    and the totals are those of the packs alone; with a missing city no solar
    output is computed and the result is the load profile with the selected
    pack keys; with both missing and no packs the call returns.  The error it
    does raise is the Not-Found error for an archetype identifier that is
    given, outside expert mode, and not in the archetype catalog. *)
Theorem missing_identifiers_are_skipped
    (archetype_id : option string) (packs : option (list string))
    (expert_mode : bool) (rich_packs : option (list dict))
    (city : option string) (solar_wp : option Q) :
  let resolved_packs := resolve_packs packs rich_packs in
  (opt_str_truthy archetype_id = false ->
   load_totals archetype_id expert_mode resolved_packs
   = pack_loop acc_zero resolved_packs)
  /\
  (opt_str_truthy city = false ->
   calculate_energy_profile archetype_id packs expert_mode rich_packs
     city solar_wp
   = (load_profile <-
        compute_load_profile archetype_id expert_mode (Some resolved_packs) ;;
      Ok (dict_set load_profile "selected_packs"
            (JArr (map (fun p => get p "key") resolved_packs)))))
  /\
  (opt_str_truthy archetype_id = false -> opt_str_truthy city = false ->
   resolved_packs = [] ->
   exists profile,
     calculate_energy_profile archetype_id packs expert_mode rich_packs
       city solar_wp = Ok profile /\
     dict_get profile "solar" = None)
  /\
  (forall id : string,
     archetype_id = Some id -> id <> "" -> expert_mode = false ->
     truthy (get archetypes_db id) = false ->
     calculate_energy_profile archetype_id packs expert_mode rich_packs
       city solar_wp
     = Raise (KeyError ("Archetype '" ++ id ++ "' not found."))).
Proof.
  intros resolved_packs.
  assert (C : opt_str_truthy city = false ->
              calculate_energy_profile archetype_id packs expert_mode
                rich_packs city solar_wp
              = (load_profile <-
                   compute_load_profile archetype_id expert_mode
                     (Some resolved_packs) ;;
                 Ok (dict_set load_profile "selected_packs"
                       (JArr (map (fun p => get p "key") resolved_packs))))).
  { intros M. unfold calculate_energy_profile, solar_requested.
    rewrite M. reflexivity. }
  split; [apply load_totals_no_archetype |]. split; [exact C |]. split.
  - intros MA MC E. rewrite (C MC). unfold compute_load_profile.
    rewrite (load_totals_no_archetype _ _ _ MA), E. cbn [pack_loop bind].
    eexists. split; [reflexivity |]. reflexivity.
  - intros id -> N -> F. apply str_truthy_true in N.
    unfold calculate_energy_profile, compute_load_profile, load_totals.
    cbn [negb andb opt_str_truthy]. rewrite N, F. reflexivity.
Qed.

(** ** Malformed bands *)



(** The three cases of a usage index, with the totals reduced in each. *)
Ltac usage_cases u :=
  destruct (Z.eqb_spec u 0) as [-> | ?];
  [| destruct (Z.eqb_spec u 1) as [-> | ?]];
  cbn [Z.eqb min_kwh avg_kwh max_kwh peak_min peak_avg peak_max].



(** ** Totals that are equal as numbers give the same profile *)

Lemma acc_eq_refl (a : acc) : acc_eq a a.
Proof. unfold acc_eq. repeat split; reflexivity. Qed.

Lemma acc_eq_sym (a b : acc) : acc_eq a b -> acc_eq b a.
Proof. unfold acc_eq. intuition (symmetry; assumption). Qed.



Lemma same_outcome_refl (r : result acc) : same_outcome r r.
Proof. destruct r; simpl; [apply acc_eq_refl | reflexivity]. Qed.






(** ** Peak totals are never negative *)

Lemma peaks_nonneg_zero : peaks_nonneg acc_zero.
Proof. unfold peaks_nonneg. cbn. repeat split; apply Qle_refl. Qed.

Lemma Qmax_nonneg (q r : Q) : 0 <= q -> 0 <= Qmax q r.
Proof. intros H. eapply Qle_trans; [exact H | apply Q.le_max_l]. Qed.

Lemma apply_pack_nonneg (a : acc) (u : Z) (k p : band) :
  peaks_nonneg a -> peaks_nonneg (apply_pack a u k p).
Proof.
  intros (N0 & N1 & N2). unfold apply_pack, band_nth, peaks_nonneg.
  destruct k as [[k0 k1] k2]. destruct p as [[p0 p1] p2].
  usage_cases u; repeat split;
    repeat apply Qmax_nonneg; assumption.
Qed.

Lemma pack_step_nonneg (a a' : acc) (item : dict) :
  peaks_nonneg a -> pack_step a item = Ok a' -> peaks_nonneg a'.
Proof.
  intros N. unfold pack_step.
  destruct (py_int _) as [u | e]; cbn [bind]; [| discriminate].
  destruct (_get_pack_db _) as [db | e]; cbn [bind]; [| discriminate].
  destruct (get_dyn db _) as [pack | e]; cbn [bind]; [| discriminate].
  destruct (negb (truthy pack)); [intros E; inversion E; subst; exact N |].
  destruct (attr_get pack "kwh_day" JNull) as [v | e]; cbn [bind];
    [| discriminate].
  destruct (_safe_band v) as [k | e]; cbn [bind]; [| discriminate].
  destruct (attr_get pack "peak_w" JNull) as [w | e]; cbn [bind];
    [| discriminate].
  destruct (_safe_band w) as [p | e]; cbn [bind]; [| discriminate].
  intros E; inversion E; subst. apply apply_pack_nonneg, N.
Qed.

Lemma pack_loop_nonneg (packs : list dict) (a a' : acc) :
  peaks_nonneg a -> pack_loop a packs = Ok a' -> peaks_nonneg a'.
Proof.
  revert a. induction packs as [| item packs IH]; intros a N; cbn [pack_loop].
  - intros E; inversion E; subst; exact N.
  - destruct (pack_step a item) as [a1 | e] eqn:S; cbn [bind]; [| discriminate].
    apply IH. eapply pack_step_nonneg; eassumption.
Qed.

Lemma add_archetype_nonneg (a a' : acc) (arch : json) :
  peaks_nonneg a -> add_archetype a arch = Ok a' -> peaks_nonneg a'.
Proof.
  intros (N0 & N1 & N2). unfold add_archetype.
  destruct (attr_get arch _ _) as [v | e]; cbn [bind]; [| discriminate].
  destruct (_safe_band v) as [[[b0 b1] b2] | e]; cbn [bind]; [| discriminate].
  destruct (attr_get arch _ _) as [w | e]; cbn [bind]; [| discriminate].
  destruct (_safe_band w) as [[[p0 p1] p2] | e]; cbn [bind]; [| discriminate].
  intros E; inversion E; subst. unfold peaks_nonneg. cbn.
  repeat split; apply Qmax_nonneg; assumption.
Qed.

Lemma load_totals_nonneg (archetype_id : option string) (expert_mode : bool)
    (packs : list dict) (a : acc) :
  load_totals archetype_id expert_mode packs = Ok a -> peaks_nonneg a.
Proof.
  unfold load_totals.
  destruct (negb expert_mode && opt_str_truthy archetype_id)%bool.
  - destruct (negb (truthy _)); cbn [bind]; [discriminate |].
    destruct (add_archetype acc_zero _) as [a0 | e] eqn:A; cbn [bind];
      [| discriminate].
    apply pack_loop_nonneg.
    eapply add_archetype_nonneg; [apply peaks_nonneg_zero | exact A].
  - cbn [bind]. apply pack_loop_nonneg, peaks_nonneg_zero.
Qed.

(** ** A malformed band contributes nothing *)








(** * Further properties of the engine *)

(** ** Usage index *)

Lemma clamp_usage_cases (u : Z) :
  (0 <= clamp_usage u <= 2)%Z /\
  (u <= 0 -> clamp_usage u = 0)%Z /\
  (2 <= u -> clamp_usage u = 2)%Z /\
  (0 <= u <= 2 -> clamp_usage u = u)%Z.
Proof. unfold clamp_usage. lia. Qed.

(** X1 -- The usage index of a selection counts only through its clamped
    value: two selections of the same group and key whose usage indices
    clamp to the same value in 0..2 (any index below 0 as 0, any above 2 as
    2) have the same effect on every running total. *)
Theorem usage_index_counts_clamped (a : acc) (item item' : dict) (u u' : Z) :
  get_default item "group" (JStr "ac1p")
  = get_default item' "group" (JStr "ac1p") ->
  get item "key" = get item' "key" ->
  py_int (get_default item "usage_index" (JNum 1)) = Ok u ->
  py_int (get_default item' "usage_index" (JNum 1)) = Ok u' ->
  clamp_usage u = clamp_usage u' ->
  pack_step a item = pack_step a item'.
Proof.
  intros G K U U' C. unfold pack_step.
  rewrite U, U', G, K. cbn [bind]. rewrite C. reflexivity.
Qed.

(** X2 -- A resolved pack selected at low usage (index 0 or below) changes
    only the min energy total and the min peak total; selected at high usage
    (index 2 or above) it changes only the max energy total and the max peak
    total.  The typical totals are touched by neither. *)
Theorem low_and_high_usage_touch_one_slot
    (a : acc) (item pack_db d : dict) (u : Z)
    (k_min k_avg k_max p_min p_avg p_max : Q) :
  py_int (get_default item "usage_index" (JNum 1)) = Ok u ->
  _get_pack_db (get_default item "group" (JStr "ac1p")) = Ok pack_db ->
  get_dyn pack_db (get item "key") = Ok (JObj d) ->
  d <> [] ->
  _safe_band (get_default d "kwh_day" JNull) = Ok (k_min, k_avg, k_max) ->
  _safe_band (get_default d "peak_w" JNull) = Ok (p_min, p_avg, p_max) ->
  ((u <= 0)%Z ->
   pack_step a item
   = Ok (mkAcc (min_kwh a + k_min) (avg_kwh a) (max_kwh a)
               (Qmax (peak_min a) p_min) (peak_avg a) (peak_max a)))
  /\
  ((2 <= u)%Z ->
   pack_step a item
   = Ok (mkAcc (min_kwh a) (avg_kwh a) (max_kwh a + k_max)
               (peak_min a) (peak_avg a) (Qmax (peak_max a) p_max))).
Proof.
  intros U G K D B P.
  assert (S : pack_step a item
              = Ok (apply_pack a (clamp_usage u)
                      (k_min, k_avg, k_max) (p_min, p_avg, p_max))).
  { unfold pack_step. rewrite U. cbn [bind]. rewrite G. cbn [bind].
    rewrite K. cbn [bind]. destruct d as [| e d']; [congruence |].
    cbn [truthy negb attr_get bind]. rewrite B. cbn [bind]. rewrite P.
    reflexivity. }
  rewrite S. destruct (clamp_usage_cases u) as (_ & L & H & _).
  split; intros R; [rewrite (L R) | rewrite (H R)]; reflexivity.
Qed.

(** ** The returned peak band *)

Lemma round_half_even_integer (z : Z) : round_half_even (inject_Z z) = z.
Proof.
  unfold round_half_even. rewrite Qfloor_Z.
  assert (E : Qcompare (inject_Z z - inject_Z z) (1 # 2) = Lt).
  { rewrite <- Qlt_alt. ring_simplify. reflexivity. }
  rewrite E. reflexivity.
Qed.

Lemma round_half_even_nonneg (q : Q) : 0 <= q -> (0 <= round_half_even q)%Z.
Proof.
  intros H. rewrite <- (round_half_even_integer 0).
  apply round_half_even_mono. exact H.
Qed.

(** X3 -- Every profile returned by [compute_load_profile] has a peak band of
    three whole numbers, none of them negative, whatever the catalogs hold:
    each peak total starts at 0 and only ever grows by a maximum. *)
Theorem peak_band_never_negative
    (archetype_id : option string) (expert_mode : bool)
    (packs : option (list dict)) (profile : dict) :
  compute_load_profile archetype_id expert_mode packs = Ok profile ->
  exists w_min w_typ w_max : Z,
    get profile "peak_power_band_w"
    = JArr [JNum (inject_Z w_min); JNum (inject_Z w_typ);
            JNum (inject_Z w_max)] /\
    (0 <= w_min)%Z /\ (0 <= w_typ)%Z /\ (0 <= w_max)%Z.
Proof.
  unfold compute_load_profile.
  destruct (load_totals archetype_id expert_mode _) as [a | e] eqn:T;
    cbn [bind]; [| discriminate].
  intros E. inversion E; subst; clear E.
  destruct (load_totals_nonneg _ _ _ _ T) as (N0 & N1 & N2).
  unfold load_result. destruct (consistency a) as [[lo ty] hi].
  eexists _, _, _. split; [reflexivity |].
  repeat split; apply round_half_even_nonneg; assumption.
Qed.

(** ** The order of the selections *)











(** ** Pack groups *)

Lemma lower_ascii_idem (c : ascii) : lower_ascii (lower_ascii c) = lower_ascii c.
Proof. destruct c as [[] [] [] [] [] [] [] []]; reflexivity. Qed.

Lemma lower_idem (s : string) : lower (lower s) = lower s.
Proof.
  induction s as [| c s IH]; cbn [lower]; [reflexivity |].
  rewrite lower_ascii_idem, IH. reflexivity.
Qed.

Lemma group_name_str (s : string) : group_name (JStr s) = Ok (lower s).
Proof. destruct s; reflexivity. Qed.

(** X5 -- Pack-group names are matched without regard to letter case: a
    group name resolves exactly as its lower-cased form does, and it resolves
    to a catalog if and only if the lower-cased name is one of the eleven
    accepted spellings (ac1p, ac, ac_1p, ac3p, ac_3p, dc12, dc12v, dc24,
    dc24v, dc48, dc48v); otherwise [_get_pack_db] raises [KeyError] naming
    the lower-cased group. *)
Theorem group_names_ignore_case (s : string) :
  _get_pack_db (JStr s) = _get_pack_db (JStr (lower s)) /\
  (known_group (lower s) = true ->
   exists pack_db, _get_pack_db (JStr s) = Ok pack_db) /\
  (known_group (lower s) = false ->
   _get_pack_db (JStr s) = Raise (KeyError ("Unknown pack group: " ++ lower s))).
Proof.
  split; [| split].
  - unfold _get_pack_db. rewrite !group_name_str, lower_idem. reflexivity.
  - apply get_pack_db_known, group_name_str.
  - apply get_pack_db_unknown, group_name_str.
Qed.

Lemma group_name_falsy (g : json) : truthy g = false -> group_name g = Ok "".
Proof. intros F. unfold group_name. rewrite F. reflexivity. Qed.

(** X6 -- A selection that has no group field is looked up in the
    single-phase AC catalog, but a selection whose group field is present and
    falsy (null, the empty string, 0, false, an empty list or dict) makes the
    step raise [KeyError] for the unknown group with the empty name. *)
Theorem absent_group_defaults_falsy_group_raises
    (a : acc) (item : dict) (u : Z) :
  py_int (get_default item "usage_index" (JNum 1)) = Ok u ->
  (dict_get item "group" = None ->
   _get_pack_db (get_default item "group" (JStr "ac1p")) = Ok packs_ac1p_db)
  /\
  (forall g, dict_get item "group" = Some g -> truthy g = false ->
   pack_step a item = Raise (KeyError "Unknown pack group: ")).
Proof.
  intros U. split.
  - intros N. unfold get_default. rewrite N. reflexivity.
  - intros g G F. unfold pack_step. rewrite U. cbn [bind].
    unfold get_default at 1. rewrite G.
    rewrite (get_pack_db_unknown g "" (group_name_falsy g F) eq_refl).
    reflexivity.
Qed.

(** ** The orchestrator *)

Lemma compute_load_profile_shape (archetype_id : option string)
    (expert_mode : bool) (packs : option (list dict)) (lp : dict) :
  compute_load_profile archetype_id expert_mode packs = Ok lp ->
  exists a, lp = load_result archetype_id expert_mode a.
Proof.
  unfold compute_load_profile.
  destruct (load_totals _ _ _) as [a | e]; cbn [bind]; [| discriminate].
  intros E; inversion E. eauto.
Qed.

Lemma compute_solar_profile_shape (city : string) (w : Q)
    (solar_db : option dict) (sp : dict) :
  compute_solar_profile city w solar_db = Ok sp ->
  exists kwp su wi av,
    sp = [ ("city", JStr city); ("wp", JNum w); ("kwp", JNum kwp);
           ("summer_daily_kwh", JNum su); ("winter_daily_kwh", JNum wi);
           ("avg_daily_kwh", JNum av) ].
Proof.
  unfold compute_solar_profile.
  destruct (negb (str_truthy city)); [discriminate |].
  destruct (negb (dict_mem _ city)); [discriminate |].
  destruct (attr_get _ "summer_kwh_per_kwp" _) as [s | e]; cbn [bind];
    [| discriminate].
  destruct (py_float s) as [su | e]; cbn [bind]; [| discriminate].
  destruct (attr_get _ "winter_kwh_per_kwp" _) as [x | e]; cbn [bind];
    [| discriminate].
  destruct (py_float x) as [wi | e]; cbn [bind]; [| discriminate].
  intros E; inversion E. eauto 10.
Qed.

(** The city and wattage handed to [compute_solar_profile]. *)
Lemma solar_requested_args (city : option string) (solar_wp : option Q) :
  solar_requested city solar_wp = true ->
  exists c w, city = Some c /\ solar_wp = Some w /\ c <> "" /\ 0 < w.
Proof.
  unfold solar_requested. destruct city as [c |]; [| discriminate].
  destruct solar_wp as [w |]; [| rewrite andb_false_r; discriminate].
  cbn [opt_str_truthy]. rewrite !andb_true_iff.
  intros (C & _ & L). apply str_truthy_true in C. apply Qlt_bool_iff in L.
  eauto 10.
Qed.


(** X8 -- A returned profile lists under selected_packs the keys of all
    resolved selections in order (also of those skipped as unknown), and it
    holds a solar and a savings entry exactly when both a non-empty city and
    a positive wattage were given. *)
Theorem profile_lists_keys_and_solar_iff_requested
    (archetype_id : option string) (packs : option (list string))
    (expert_mode : bool) (rich_packs : option (list dict))
    (city : option string) (solar_wp : option Q) (profile : dict) :
  calculate_energy_profile archetype_id packs expert_mode rich_packs
    city solar_wp = Ok profile ->
  dict_get profile "selected_packs"
  = Some (JArr (map (fun p => get p "key") (resolve_packs packs rich_packs)))
  /\ dict_mem profile "solar" = solar_requested city solar_wp
  /\ dict_mem profile "savings" = solar_requested city solar_wp.
Proof.
  unfold calculate_energy_profile.
  destruct (compute_load_profile _ _ _) as [lp | e'] eqn:L; cbn [bind];
    [| discriminate].
  destruct (compute_load_profile_shape _ _ _ _ L) as [a ->].
  unfold load_result. destruct (consistency a) as [[lo ty] hi].
  destruct (solar_requested city solar_wp) eqn:R.
  - destruct (solar_requested_args _ _ R) as (c & w & -> & -> & _ & _).
    destruct (compute_solar_profile c w None) as [sp | e'] eqn:S; cbn [bind];
      [| discriminate].
    destruct (compute_solar_profile_shape _ _ _ _ S)
      as (kwp & su & wi & av & ->).
    cbn. intros E; inversion E; subst. repeat split.
  - intros E; inversion E; subst. repeat split.
Qed.

(** X9 -- When solar output is requested, the savings entry of the returned
    profile is [compute_savings_profile] applied to the typical value of the
    returned daily_kwh_band as consumption and to the avg_daily_kwh of the
    attached solar profile as generation, with the default price, growth,
    horizon and CO2 factor; the solar entry is the profile returned by
    [compute_solar_profile], and the load bands are kept as computed. *)
Theorem savings_use_typical_load_and_average_solar
    (archetype_id : option string) (packs : option (list string))
    (expert_mode : bool) (rich_packs : option (list dict))
    (city : string) (solar_wp : Q) (profile : dict) :
  solar_requested (Some city) (Some solar_wp) = true ->
  calculate_energy_profile archetype_id packs expert_mode rich_packs
    (Some city) (Some solar_wp) = Ok profile ->
  exists lp sp lo typical hi avg,
    compute_load_profile archetype_id expert_mode
      (Some (resolve_packs packs rich_packs)) = Ok lp /\
    compute_solar_profile city solar_wp None = Ok sp /\
    dict_get profile "daily_kwh_band"
    = Some (JArr [JNum lo; JNum typical; JNum hi]) /\
    dict_get profile "daily_kwh_band" = dict_get lp "daily_kwh_band" /\
    dict_get profile "peak_power_band_w" = dict_get lp "peak_power_band_w" /\
    dict_get profile "solar" = Some (JObj sp) /\
    dict_get sp "avg_daily_kwh" = Some (JNum avg) /\
    dict_get profile "savings"
    = Some (JObj (compute_savings_profile typical avg
                    default_price default_growth default_horizon default_co2)).
Proof.
  intros R. unfold calculate_energy_profile. rewrite R.
  destruct (compute_load_profile _ _ _) as [lp | e'] eqn:L; cbn [bind];
    [| discriminate].
  destruct (compute_load_profile_shape _ _ _ _ L) as [a ->].
  destruct (compute_solar_profile city solar_wp None) as [sp | e'] eqn:S;
    cbn [bind]; [| discriminate].
  destruct (compute_solar_profile_shape _ _ _ _ S)
    as (kwp & su & wi & av & ->).
  unfold load_result. destruct (consistency a) as [[lo ty] hi].
  cbn. intros E; inversion E; subst.
  eexists _, _, _, _, _, _. repeat split.
Qed.

(** Rich selections take precedence over the legacy key list: with a
    non-empty rich list the key list is ignored; with no rich list, or an
    empty one, each legacy key counts as the selection of that key in the
    single-phase AC group at typical usage. *)
Lemma rich_packs_take_precedence
    (archetype_id : option string) (expert_mode : bool)
    (city : option string) (solar_wp : option Q) :
  (forall packs p ps,
     calculate_energy_profile archetype_id packs expert_mode
       (Some (p :: ps)) city solar_wp
     = calculate_energy_profile archetype_id None expert_mode
         (Some (p :: ps)) city solar_wp)
  /\
  (forall k ks rich_packs,
     rich_packs = None \/ rich_packs = Some [] ->
     calculate_energy_profile archetype_id (Some (k :: ks)) expert_mode
       rich_packs city solar_wp
     = calculate_energy_profile archetype_id None expert_mode
         (Some (map (fun key =>
                       [ ("group", JStr "ac1p"); ("key", JStr key);
                         ("usage_index", JNum 1) ]) (k :: ks)))
         city solar_wp).
Proof.
  split.
  - intros packs p ps. reflexivity.
  - intros k ks rich_packs [-> | ->]; reflexivity.
Qed.

(** ** Solar profile: the average lies between the seasons *)


(** ** Savings: bounds and closed forms *)

Lemma sum_years_nonneg (f : nat -> Q) (n : nat) :
  (forall y, 0 <= f y) -> 0 <= sum_years f n.
Proof.
  intros F. induction n as [| n IH]; cbn [sum_years]; [apply Qle_refl |].
  specialize (F n). lra.
Qed.

Lemma sum_years_first (f : nat -> Q) (n : nat) :
  (forall y, 0 <= f y) -> f O <= sum_years f (S n).
Proof.
  intros F. induction n as [| n IH]; cbn [sum_years] in *.
  - lra.
  - specialize (F (S n)). lra.
Qed.

Lemma py_round_zero_nonneg (q : Q) (n : nat) : 0 <= q -> 0 <= py_round q n.
Proof.
  intros H. unfold py_round.
  pose proof (scale_pos n) as P.
  set (s := inject_Z (10 ^ Z.of_nat n)) in *.
  assert (N : (0 <= round_half_even (q * s))%Z).
  { apply round_half_even_nonneg. apply Qmult_le_0_compat; lra. }
  rewrite Zle_Qle in N. unfold Qdiv.
  apply Qmult_le_0_compat; [exact N |].
  apply Qlt_le_weak, Qinv_lt_0_compat, P.
Qed.

Lemma savings_money_fields
    (consumption solar price growth : Q) (horizon : Z) (co2_factor : Q) :
  get (compute_savings_profile consumption solar price growth horizon
         co2_factor) "year1_savings_tl"
  = JNum (py_round (daily_offset_kwh consumption solar * price * 365) 2) /\
  get (compute_savings_profile consumption solar price growth horizon
         co2_factor) "multi_year_savings_tl"
  = JNum (py_round
            (sum_years
               (fun y => daily_offset_kwh consumption solar * price
                         * (1 + growth) ^ Z.of_nat y * 365)
               (Z.to_nat horizon)) 2).
Proof.
  cbn. split; [reflexivity |].
  f_equal. apply py_round_comp. unfold range. apply multi_year_loop_sum.
Qed.

(** X11 -- With a non-negative consumption, solar generation and price, a
    growth rate of at least -1 and a horizon of at least one year, the
    returned year-1 savings are not negative and never exceed the returned
    multi-year savings. *)
Theorem year1_savings_within_multi_year
    (consumption solar price growth : Q) (horizon : Z) (co2_factor : Q) :
  0 <= consumption -> 0 <= solar -> 0 <= price -> -(1) <= growth ->
  (1 <= horizon)%Z ->
  exists year1 multi,
    get (compute_savings_profile consumption solar price growth horizon
           co2_factor) "year1_savings_tl" = JNum year1 /\
    get (compute_savings_profile consumption solar price growth horizon
           co2_factor) "multi_year_savings_tl" = JNum multi /\
    0 <= year1 /\ year1 <= multi.
Proof.
  intros C S P G H.
  destruct (savings_money_fields consumption solar price growth
              horizon co2_factor) as (Y & M).
  rewrite Y, M.
  set (offset := daily_offset_kwh consumption solar) in *.
  assert (O : 0 <= offset).
  { unfold offset, daily_offset_kwh. apply Q.min_glb; assumption. }
  assert (T : 0 <= offset * price * 365).
  { apply Qmult_le_0_compat; [apply Qmult_le_0_compat; assumption | lra]. }
  assert (F : forall y,
             0 <= offset * price * (1 + growth) ^ Z.of_nat y * 365).
  { intros y. apply Qmult_le_0_compat; [| lra].
    apply Qmult_le_0_compat; [apply Qmult_le_0_compat; assumption |].
    apply Qpower.Qpower_0_le. lra. }
  eexists _, _. split; [reflexivity |]. split; [reflexivity |]. split.
  - apply py_round_zero_nonneg, T.
  - apply py_round_mono.
    destruct (Z.to_nat horizon) as [| n] eqn:N; [lia |].
    eapply Qle_trans; [| apply sum_years_first, F].
    cbn [Z.of_nat]. rewrite Qpower.Qpower_0_r. lra.
Qed.



(** ** The consistency block never moves the typical total *)

Lemma consistency_parts (a : acc) (lo ty hi : Q) :
  consistency a = (lo, ty, hi) ->
  ty = avg_kwh a /\ lo <= min_kwh a /\ max_kwh a <= hi.
Proof.
  unfold consistency.
  set (max1 := if (Qeq_bool (max_kwh a) 0 && Qlt_bool 0 (avg_kwh a))%bool
               then avg_kwh a else max_kwh a).
  set (min1 := Qmin (Qmin (min_kwh a) (avg_kwh a)) max1).
  intros E.
  assert (M : min1 <= avg_kwh a).
  { unfold min1.
    eapply Qle_trans; [apply Q.le_min_l | apply Q.le_min_r]. }
  assert (X : max_kwh a <= max1).
  { unfold max1.
    destruct (Qeq_bool (max_kwh a) 0) eqn:Z; cbn [andb]; [| apply Qle_refl].
    destruct (Qlt_bool 0 (avg_kwh a)) eqn:P; [| apply Qle_refl].
    apply Qeq_bool_iff in Z. apply Qlt_bool_iff in P. lra. }
  destruct (Qlt_bool (avg_kwh a) min1) eqn:B.
  - apply Qlt_bool_iff in B. exfalso. lra.
  - inversion E; subst. split; [reflexivity |]. split.
    + eapply Qle_trans; [apply Q.le_min_l | apply Q.le_min_l].
    + eapply Qle_trans; [exact X |].
      eapply Qle_trans; [| apply Q.le_max_l]. apply Q.le_max_l.
Qed.

(** X13 -- The consistency block only ever widens the energy band around
    the typical total: in every returned profile the typical value of
    daily_kwh_band is the typical running total rounded to 3 decimals (the
    final adjustment [if avg_kwh < min_kwh] never fires), the returned
    minimum is at most the rounded min total and the returned maximum at
    least the rounded max total. *)
Theorem consistency_only_widens_around_typical
    (archetype_id : option string) (expert_mode : bool)
    (packs : option (list dict)) (profile : dict) :
  compute_load_profile archetype_id expert_mode packs = Ok profile ->
  exists a lo hi,
    load_totals archetype_id expert_mode
      (match packs with Some l => l | None => [] end) = Ok a /\
    get profile "daily_kwh_band"
    = JArr [JNum lo; JNum (py_round (avg_kwh a) 3); JNum hi] /\
    lo <= py_round (min_kwh a) 3 /\ py_round (max_kwh a) 3 <= hi.
Proof.
  unfold compute_load_profile.
  destruct (load_totals archetype_id expert_mode _) as [a | e] eqn:T;
    cbn [bind]; [| discriminate].
  intros E. inversion E; subst; clear E.
  unfold load_result.
  destruct (consistency a) as [[lo ty] hi] eqn:C.
  destruct (consistency_parts _ _ _ _ C) as (-> & L & H).
  exists a, (py_round lo 3), (py_round hi 3).
  split; [reflexivity |]. split; [reflexivity |].
  split; apply py_round_mono; assumption.
Qed.

(** X14 -- When the running totals are already ordered (min <= typical <=
    max), the consistency block changes nothing: the returned
    daily_kwh_band is the three totals, each rounded to 3 decimals. *)
Theorem ordered_totals_are_returned_rounded
    (archetype_id : option string) (expert_mode : bool)
    (packs : option (list dict)) (a : acc) :
  load_totals archetype_id expert_mode
    (match packs with Some l => l | None => [] end) = Ok a ->
  min_kwh a <= avg_kwh a -> avg_kwh a <= max_kwh a ->
  exists profile,
    compute_load_profile archetype_id expert_mode packs = Ok profile /\
    get profile "daily_kwh_band"
    = JArr [JNum (py_round (min_kwh a) 3); JNum (py_round (avg_kwh a) 3);
            JNum (py_round (max_kwh a) 3)].
Proof.
  intros T L H. unfold compute_load_profile. rewrite T. cbn [bind].
  eexists. split; [reflexivity |].
  unfold load_result, consistency. cbv zeta.
  set (max1 := if (Qeq_bool (max_kwh a) 0 && Qlt_bool 0 (avg_kwh a))%bool
               then avg_kwh a else max_kwh a).
  set (min1 := Qmin (Qmin (min_kwh a) (avg_kwh a)) max1).
  assert (X : max1 == max_kwh a).
  { unfold max1.
    destruct (Qeq_bool (max_kwh a) 0) eqn:Z; cbn [andb]; [| reflexivity].
    destruct (Qlt_bool 0 (avg_kwh a)) eqn:P; [| reflexivity].
    apply Qeq_bool_iff in Z. apply Qlt_bool_iff in P. lra. }
  assert (Qlo : min1 == min_kwh a).
  { unfold min1. rewrite (Q.min_l (min_kwh a) (avg_kwh a)) by exact L.
    apply Q.min_l. rewrite X. lra. }
  assert (B : Qlt_bool (avg_kwh a) min1 = false).
  { destruct (Qlt_bool (avg_kwh a) min1) eqn:B; [| reflexivity].
    apply Qlt_bool_iff in B. lra. }
  assert (Qhi : Qmax (Qmax max1 (avg_kwh a)) min1 == max_kwh a).
  { rewrite Qlo. rewrite (Q.max_l max1 (avg_kwh a)) by (rewrite X; exact H).
    rewrite Q.max_l by (rewrite X; lra). exact X. }
  rewrite B. clearbody min1. clearbody max1. cbn.
  rewrite (py_round_comp _ _ 3 Qlo), (py_round_comp _ _ 3 Qhi).
  reflexivity.
Qed.

(** ** The recommender: where the returned tiers come from *)

Lemma eligible_loop_all_dicts (rc ri : Q) (db : dict) (recs0 recs : list dict) :
  eligible_loop rc ri db recs0 = Ok recs -> all_dicts db.
Proof.
  revert recs0.
  induction db as [| [tid v] db IH]; intros recs0; cbn [eligible_loop].
  - intros _. constructor.
  - destruct v as [| | | | | d]; try (cbn; discriminate).
    rewrite tier_step_dict. cbn [bind]. intros H.
    constructor; [reflexivity | exact (IH _ H)].
Qed.

Lemma eligible_recommendations_all_dicts (profile db : dict) (recs : list dict) :
  eligible_recommendations profile db = Ok recs -> all_dicts db.
Proof.
  unfold eligible_recommendations.
  destruct (_safe_band (get_default profile "daily_kwh_band" zero_list))
    as [daily | e]; cbn [bind]; [| discriminate].
  destruct (_safe_band (get_default profile "peak_power_band_w" zero_list))
    as [peak | e]; cbn [bind]; [| discriminate].
  destruct (eligible_loop _ _ db []) as [l | e] eqn:L; cbn [bind];
    [| discriminate].
  intros _. exact (eligible_loop_all_dicts _ _ _ _ _ L).
Qed.

Lemma fallback_from_catalog (db : dict) (recs : list dict) :
  fallback db = Ok recs ->
  (List.length recs <= 1)%nat /\
  forall t, In t recs ->
    exists tid d, In (tid, JObj d) db /\ t = tier_copy tid d.
Proof.
  unfold fallback, dict_mem, get.
  destruct (dict_get db "tier_2_comfort") as [v |] eqn:G.
  - destruct v as [| | | | | d]; cbn; try discriminate.
    intros E; inversion E; subst; clear E. split; [cbn; lia |].
    intros t [<- | []]. exists "tier_2_comfort", d.
    split; [apply dict_get_in, G | reflexivity].
  - destruct (sorted_by item_capacity_key true db) as [sorted | e] eqn:S;
      cbn [bind]; [| discriminate].
    destruct (sorted_by_spec _ _ _ _ S) as [P _].
    destruct sorted as [| [tid tdata] rest].
    + intros E; inversion E; subst. split; [cbn; lia |]. intros t [].
    + destruct tdata as [| | | | | d]; cbn; try discriminate.
      intros E; inversion E; subst; clear E. split; [cbn; lia |].
      intros t [<- | []]. exists tid, d. split; [| reflexivity].
      apply (Permutation_in _ P). left; reflexivity.
Qed.

Lemma tier_copy_fields (tid : string) (d : dict) :
  dict_mem (tier_copy tid d) "tier_id" = true /\
  (dict_get d "tier_id" = None ->
   dict_get (tier_copy tid d) "tier_id" = Some (JStr tid)) /\
  (dict_mem d "tier_id" = true -> tier_copy tid d = d) /\
  (forall k, k <> "tier_id" -> dict_get (tier_copy tid d) k = dict_get d k).
Proof.
  unfold tier_copy, setdefault, dict_mem.
  destruct (dict_get d "tier_id") as [v |] eqn:G.
  - rewrite G. repeat split; try discriminate. 
  - rewrite (dict_get_app_none _ _ _ G). cbn. repeat split; try discriminate.
    intros k N. destruct (dict_get d k) as [x |] eqn:E.
    + apply dict_get_app_some, E.
    + rewrite (dict_get_app_none _ _ _ E). cbn.
      apply String.eqb_neq in N. rewrite N. reflexivity.
Qed.

(** X15 -- Every tier that [recommend_ecoflow_tiers] returns is a copy of a
    record of the catalog: it carries a tier_id, which is the catalog key
    when the record has none and the record's own tier_id otherwise (the
    copy is then the record itself), and every other field is the
    record's. *)
Theorem recommended_tiers_are_catalog_copies
    (profile : dict) (tiers_db : option dict) (recs : list dict) :
  recommend_ecoflow_tiers profile tiers_db = Ok recs ->
  forall t, In t recs ->
    exists tid d,
      In (tid, JObj d) (dict_or tiers_db ecoflow_tiers_db) /\
      dict_mem t "tier_id" = true /\
      (dict_get d "tier_id" = None -> dict_get t "tier_id" = Some (JStr tid)) /\
      (dict_mem d "tier_id" = true -> t = d) /\
      (forall k, k <> "tier_id" -> dict_get t k = dict_get d k).
Proof.
  unfold recommend_ecoflow_tiers.
  set (db := dict_or tiers_db ecoflow_tiers_db).
  destruct (eligible_recommendations profile db) as [el | e] eqn:E;
    cbn [bind]; [| discriminate].
  intros R.
  assert (C : forall t, In t recs ->
                exists tid d, In (tid, JObj d) db /\ t = tier_copy tid d).
  { pose proof (eligible_recommendations_all_dicts _ _ _ E) as D.
    destruct (eligible_recommendations_spec profile db D)
      as (daily & peak & recs' & _ & _ & E' & P & _).
    rewrite E in E'. inversion E'; subst recs'. clear E'.
    destruct el as [| t0 el]; intros t I.
    - destruct (fallback_from_catalog _ _ R) as [_ F]. exact (F t I).
    - inversion R; subst recs. apply (Permutation_in _ P) in I.
      apply eligible_copies_in in I.
      destruct I as (tid & d & I & _ & ->). eauto. }
  intros t I. destruct (C t I) as (tid & d & Id & ->).
  exists tid, d. split; [exact Id |]. apply tier_copy_fields.
Qed.

(** ** The recommender: when the list is empty, and what the fallback gives *)



Lemma no_eligible_copies (rc ri : Q) (db : dict) :
  (forall tid d, In (tid, JObj d) db -> tier_eligible rc ri d = false) ->
  eligible_copies rc ri db = [].
Proof.
  intros F. destruct (eligible_copies rc ri db) as [| t l] eqn:E;
    [reflexivity |].
  assert (I : In t (eligible_copies rc ri db)) by (rewrite E; left; reflexivity).
  apply eligible_copies_in in I. destruct I as (tid & d & I & T & _).
  rewrite (F _ _ I) in T. discriminate.
Qed.

(** X17 -- When no tier of the catalog is eligible, the recommendation is a
    single tier: the tier named tier_2_comfort if the catalog has it
    (although it does not cover the requirements), and otherwise, over a
    non-empty catalog whose capacities all convert, a tier of the largest
    capacity in the catalog. *)
Theorem no_eligible_tier_gives_default_or_largest
    (profile : dict) (tiers_db : option dict) (daily peak : band) :
  all_dicts (dict_or tiers_db ecoflow_tiers_db) ->
  _safe_band (get_default profile "daily_kwh_band" zero_list) = Ok daily ->
  _safe_band (get_default profile "peak_power_band_w" zero_list) = Ok peak ->
  (forall tid d, In (tid, JObj d) (dict_or tiers_db ecoflow_tiers_db) ->
     tier_eligible (required_capacity_wh daily) (required_inverter_w peak) d
     = false) ->
  (forall d,
     dict_get (dict_or tiers_db ecoflow_tiers_db) "tier_2_comfort"
     = Some (JObj d) ->
     recommend_ecoflow_tiers profile tiers_db
     = Ok [tier_copy "tier_2_comfort" d])
  /\
  (dict_get (dict_or tiers_db ecoflow_tiers_db) "tier_2_comfort" = None ->
   Forall (fun e => exists c, item_capacity_key e = Ok c)
          (dict_or tiers_db ecoflow_tiers_db) ->
   dict_or tiers_db ecoflow_tiers_db <> [] ->
   exists tid d c,
     recommend_ecoflow_tiers profile tiers_db = Ok [tier_copy tid d] /\
     In (tid, JObj d) (dict_or tiers_db ecoflow_tiers_db) /\
     item_capacity_key (tid, JObj d) = Ok c /\
     forall e c', In e (dict_or tiers_db ecoflow_tiers_db) ->
                  item_capacity_key e = Ok c' -> c' <= c).
Proof.
  intros D Ed Ep F.
  pose proof (recommend_falls_back profile tiers_db daily peak D Ed Ep
                (no_eligible_copies _ _ _ F)) as R.
  cbv zeta in R. rewrite R. split.
  - intros d G. apply fallback_default_tier, G.
  - intros G K N. apply fallback_largest_tier; assumption.
Qed.

(** ** The recommender: lower requirements keep every recommendation *)

Lemma tier_eligible_mono (rc ri rc' ri' : Q) (d : dict) :
  rc' <= rc -> ri' <= ri ->
  tier_eligible rc ri d = true -> tier_eligible rc' ri' d = true.
Proof.
  intros C I. unfold tier_eligible.
  destruct (py_float (get_default d "capacity_wh_total" JNull)) as [c | e];
    [| discriminate].
  destruct (py_float (get_default d "inverter_w_continuous" JNull)) as [i | e];
    [| discriminate].
  rewrite !andb_true_iff, !Qle_bool_iff. intros [H1 H2]. split; lra.
Qed.

(** X18 -- Eligibility is monotone in the requirements: when a second
    profile has a typical daily energy and a required inverter wattage no
    larger than those of a first one, every tier eligible for the first
    profile is eligible for the second. *)
Theorem lower_requirements_keep_recommendations
    (profile profile' tiers_db : dict) (lo ty hi lo' ty' hi' : Q)
    (peak peak' : band) (recs recs' : list dict) :
  _safe_band (get_default profile "daily_kwh_band" zero_list)
  = Ok (lo, ty, hi) ->
  _safe_band (get_default profile "peak_power_band_w" zero_list) = Ok peak ->
  _safe_band (get_default profile' "daily_kwh_band" zero_list)
  = Ok (lo', ty', hi') ->
  _safe_band (get_default profile' "peak_power_band_w" zero_list) = Ok peak' ->
  ty' <= ty ->
  required_inverter_w peak' <= required_inverter_w peak ->
  eligible_recommendations profile tiers_db = Ok recs ->
  eligible_recommendations profile' tiers_db = Ok recs' ->
  forall t, In t recs -> In t recs'.
Proof.
  intros Ed Ep Ed' Ep' T R E E' t I.
  pose proof (eligible_recommendations_all_dicts _ _ _ E) as D.
  destruct (eligible_recommendations_spec profile tiers_db D)
    as (daily0 & peak0 & recs0 & Ed0 & Ep0 & E0 & P & _).
  destruct (eligible_recommendations_spec profile' tiers_db D)
    as (daily1 & peak1 & recs1 & Ed1 & Ep1 & E1 & P' & _).
  rewrite Ed in Ed0. rewrite Ep in Ep0. rewrite Ed' in Ed1. rewrite Ep' in Ep1.
  rewrite E in E0. rewrite E' in E1.
  inversion Ed0; inversion Ep0; inversion Ed1; inversion Ep1;
    inversion E0; inversion E1; subst. clear Ed0 Ep0 Ed1 Ep1 E0 E1.
  apply (Permutation_in _ P) in I. apply eligible_copies_in in I.
  destruct I as (tid & d & Id & El & ->).
  apply (Permutation_in _ (Permutation_sym P')). apply eligible_copies_in.
  exists tid, d. split; [exact Id |]. split; [| reflexivity].
  revert El. apply tier_eligible_mono; [| exact R].
  unfold required_capacity_wh. lra.
Qed.
End Engine.

(** * The engine on the demonstration catalogs *)

Abbreviation demo_load_totals :=
  (load_totals digits_to_float digits_to_int
     demo_archetypes demo_packs_ac1p [] [] [] []).

Abbreviation demo_pack_step :=
  (pack_step digits_to_float digits_to_int demo_packs_ac1p [] [] [] []).

Abbreviation demo_compute_load_profile :=
  (compute_load_profile digits_to_float digits_to_int
     demo_archetypes demo_packs_ac1p [] [] [] []).

Abbreviation demo_calculate_energy_profile :=
  (calculate_energy_profile digits_to_float digits_to_int
     demo_archetypes demo_packs_ac1p [] [] [] [] demo_solar).

(** ** The scenarios of the design notes *)

Example baseline_only :
  demo_compute_load_profile (Some "home") false None
  = Ok [ ("archetype", JStr "home"); ("expert_mode", JBool false);
         ("daily_kwh_band", JArr [JNum 2.000; JNum 3.000; JNum 4.500]);
         ("peak_power_band_w", JArr [JNum 200; JNum 400; JNum 800]) ].
Proof. vm_compute. reflexivity. Qed.

Example baseline_and_typical_pack :
  demo_compute_load_profile (Some "home") false
    (Some [selection "ac1p" "lighting" 1])
  = Ok [ ("archetype", JStr "home"); ("expert_mode", JBool false);
         ("daily_kwh_band", JArr [JNum 2.500; JNum 4.000; JNum 6.500]);
         ("peak_power_band_w", JArr [JNum 200; JNum 400; JNum 800]) ].
Proof. vm_compute. reflexivity. Qed.

Example solar_scenario :
  compute_solar_profile digits_to_float demo_solar "Izmir" 2000 None
  = Ok [ ("city", JStr "Izmir"); ("wp", JNum 2000); ("kwp", JNum 2.000);
         ("summer_daily_kwh", JNum 10.400); ("winter_daily_kwh", JNum 5.600);
         ("avg_daily_kwh", JNum 8.480) ].
Proof. vm_compute. reflexivity. Qed.

Example savings_scenario :
  compute_savings_profile 4 8.48
    default_price default_growth default_horizon default_co2
  = [ ("daily_offset_kwh", JNum 4.000); ("year1_savings_tl", JNum 4526.00);
      ("multi_year_savings_tl", JNum 37145.02);
      ("yearly_co2_kg", JNum 657.00);
      ("electricity_price_tl_per_kwh", JNum 3.1);
      ("price_growth_rate", JNum 0.25); ("horizon_years", JNum 5);
      ("co2_kg_per_kwh", JNum 0.45) ].
Proof. vm_compute. reflexivity. Qed.

Example extreme_profile_gets_default_tier :
  recommend_ecoflow_tiers digits_to_float demo_tiers
    [ ("daily_kwh_band", num_list 1 100 200);
      ("peak_power_band_w", num_list 100 200 1000) ] None
  = Ok [ [ ("capacity_wh_total", JNum 2000);
           ("inverter_w_continuous", JNum 2400);
           ("tier_id", JStr "tier_2_comfort") ] ].
Proof. vm_compute. reflexivity. Qed.

(** ** C1 *)

(** C1 -- counterexample: in expert mode, one pack selected at usage index
    0 whose peak band is (500, 600, 700) gives the peak band [500, 0, 0]:
    the returned min exceeds the returned typical value. *)
Lemma peak_band_not_ordered :
  demo_compute_load_profile None true (Some [selection "ac1p" "heater" 0])
  = Ok [ ("archetype", JNull); ("expert_mode", JBool true);
         ("daily_kwh_band", JArr [JNum 0.000; JNum 0.000; JNum 0.000]);
         ("peak_power_band_w", JArr [JNum 500; JNum 0; JNum 0]) ]
  /\ ~ band_ordered (JArr [JNum 500; JNum 0; JNum 0]).
Proof.
  split; [vm_compute; reflexivity |].
  intros [H _]. revert H. vm_compute. intros H. apply H. reflexivity.
Qed.

Lemma daily_kwh_band_ordered_witness :
  demo_compute_load_profile (Some "home") false
    (Some [selection "ac1p" "lighting" 1])
  = Ok [ ("archetype", JStr "home"); ("expert_mode", JBool false);
         ("daily_kwh_band", JArr [JNum 2.500; JNum 4.000; JNum 6.500]);
         ("peak_power_band_w", JArr [JNum 200; JNum 400; JNum 800]) ]
  /\ band_ordered (JArr [JNum 2.500; JNum 4.000; JNum 6.500]).
Proof.
  assert (E : demo_compute_load_profile (Some "home") false
                (Some [selection "ac1p" "lighting" 1])
              = Ok [ ("archetype", JStr "home"); ("expert_mode", JBool false);
                     ("daily_kwh_band",
                       JArr [JNum 2.500; JNum 4.000; JNum 6.500]);
                     ("peak_power_band_w",
                       JArr [JNum 200; JNum 400; JNum 800]) ])
    by (vm_compute; reflexivity).
  split; [exact E |].
  exact (daily_kwh_band_ordered _ _ _ _ _ _ _ _ _ _ _ _ E).
Defined.

(** ** C3 *)


(** ** C4 *)

Lemma demo_tiers_all_dicts : all_dicts demo_tiers.
Proof. repeat constructor. Qed.


Example eligible_tiers_ascending :
  recommend_ecoflow_tiers digits_to_float demo_tiers
    [ ("daily_kwh_band", num_list 1 1.5 2);
      ("peak_power_band_w", num_list 100 200 1000) ] None
  = Ok [ [ ("capacity_wh_total", JNum 2000);
           ("inverter_w_continuous", JNum 2400);
           ("tier_id", JStr "tier_2_comfort") ];
         [ ("capacity_wh_total", JNum 6000);
           ("inverter_w_continuous", JNum 3600);
           ("tier_id", JStr "tier_3_pro") ] ].
Proof. vm_compute. reflexivity. Qed.

(** ** C5 *)


Example required_inverter_w_fallbacks :
  required_inverter_w (100, 200, 0) = 200 * 1.2
  /\ required_inverter_w (100, 0, 0) = 0.
Proof. split; reflexivity. Qed.

(** ** C6 *)

Lemma unknown_group_raises_absent_key_skipped_witness :
  demo_compute_load_profile (Some "home") false
    (Some [selection "wind" "turbine" 1])
  = Raise (KeyError "Unknown pack group: wind")
  /\
  demo_compute_load_profile (Some "home") false
    (Some [selection "AC1P" "missing" 1; selection "ac1p" "lighting" 1])
  = demo_compute_load_profile (Some "home") false
      (Some [selection "ac1p" "lighting" 1]).
Proof.
  split.
  - edestruct (unknown_group_raises_absent_key_skipped
                 digits_to_float digits_to_int
                 demo_archetypes demo_packs_ac1p [] [] [] []
                 (Some "home") false [] [] (selection "wind" "turbine" 1))
      as [H _]; [reflexivity | reflexivity | reflexivity |].
    exact (H eq_refl).
  - edestruct (unknown_group_raises_absent_key_skipped
                 digits_to_float digits_to_int
                 demo_archetypes demo_packs_ac1p [] [] [] []
                 (Some "home") false [] [selection "ac1p" "lighting" 1]
                 (selection "AC1P" "missing" 1))
      as [_ H]; [reflexivity | reflexivity | reflexivity |].
    destruct (H eq_refl) as (pack_db & G & K).
    apply K. right. exists "missing". split; [reflexivity |].
    injection G as <-. reflexivity.
Defined.

(** ** C7 *)



Example solar_errors :
  compute_solar_profile digits_to_float demo_solar "" 2000 None
  = Raise (ValueError "City is required for solar calculation.")
  /\ compute_solar_profile digits_to_float demo_solar "Atlantis" 2000 None
     = Raise (KeyError "City 'Atlantis' not found in solar_generation.json").
Proof. split; reflexivity. Qed.

(** ** C9 *)

(** C9 -- counterexample: a call without archetype identifier returns a
    profile, and so does a call that asks for 2000 W of solar output without
    a city: neither raises. *)
Lemma missing_identifiers_do_not_raise :
  demo_calculate_energy_profile None None false None None None
  = Ok [ ("archetype", JNull); ("expert_mode", JBool false);
         ("daily_kwh_band", JArr [JNum 0.000; JNum 0.000; JNum 0.000]);
         ("peak_power_band_w", JArr [JNum 0; JNum 0; JNum 0]);
         ("selected_packs", JArr []) ]
  /\
  demo_calculate_energy_profile (Some "home") (Some ["lighting"]) false None
    None (Some 2000)
  = Ok [ ("archetype", JStr "home"); ("expert_mode", JBool false);
         ("daily_kwh_band", JArr [JNum 2.500; JNum 4.000; JNum 6.500]);
         ("peak_power_band_w", JArr [JNum 200; JNum 400; JNum 800]);
         ("selected_packs", JArr [JStr "lighting"]) ].
Proof. split; vm_compute; reflexivity. Qed.

Lemma missing_identifiers_are_skipped_witness :
  opt_str_truthy None = false /\
  exists profile,
    demo_calculate_energy_profile None None false None None (Some 2000)
    = Ok profile /\
    dict_get profile "solar" = None.
Proof.
  split; [reflexivity |].
  destruct (missing_identifiers_are_skipped digits_to_float digits_to_int
              demo_archetypes demo_packs_ac1p [] [] [] [] demo_solar
              None None false None None (Some 2000)) as (_ & _ & H & _).
  exact (H eq_refl eq_refl eq_refl).
Defined.

Example unknown_archetype_raises :
  demo_calculate_energy_profile (Some "castle") None false None None None
  = Raise (KeyError "Archetype 'castle' not found.").
Proof. reflexivity. Qed.

(** ** C10 *)





Example malformed_archetype_is_zero :
  demo_compute_load_profile (Some "shed") false None
  = Ok [ ("archetype", JStr "shed"); ("expert_mode", JBool false);
         ("daily_kwh_band", JArr [JNum 0.000; JNum 0.000; JNum 0.000]);
         ("peak_power_band_w", JArr [JNum 0; JNum 0; JNum 0]) ].
Proof. vm_compute. reflexivity. Qed.

(** ** C2 *)

Example null_capacity_passed_over_by_loop :
  eligible_recommendations digits_to_float
    [ ("daily_kwh_band", num_list 1 1.5 2) ] null_capacity_tiers = Ok [].
Proof. reflexivity. Qed.

(** * Further properties on the demonstration catalogs *)

(** ** Usage indices *)

Lemma usage_index_counts_clamped_witness :
  clamp_usage 5 = clamp_usage 2 /\
  demo_pack_step acc_zero (selection "ac1p" "lighting" 5)
  = demo_pack_step acc_zero (selection "ac1p" "lighting" 2).
Proof.
  split; [reflexivity |].
  apply (usage_index_counts_clamped digits_to_float digits_to_int
           demo_packs_ac1p [] [] [] [] acc_zero
           (selection "ac1p" "lighting" 5) (selection "ac1p" "lighting" 2)
           5 2); reflexivity.
Defined.

Lemma low_and_high_usage_touch_one_slot_witness :
  demo_pack_step (mkAcc 2 3 4.5 200 400 800) (selection "ac1p" "heater" 0)
  = Ok (mkAcc (2 + 1) 3 4.5 (Qmax 200 500) 400 800)
  /\
  demo_pack_step (mkAcc 2 3 4.5 200 400 800) (selection "ac1p" "heater" 7)
  = Ok (mkAcc 2 3 (4.5 + 3) 200 400 (Qmax 800 700)).
Proof.
  split.
  - destruct (low_and_high_usage_touch_one_slot digits_to_float digits_to_int
                demo_packs_ac1p [] [] [] []
                (mkAcc 2 3 4.5 200 400 800) (selection "ac1p" "heater" 0)
                demo_packs_ac1p
                [ ("kwh_day", num_list 1 2 3);
                  ("peak_w", num_list 500 600 700) ]
                0 1 2 3 500 600 700) as [L _];
      [reflexivity | reflexivity | reflexivity | discriminate
      | reflexivity | reflexivity |].
    apply L. lia.
  - destruct (low_and_high_usage_touch_one_slot digits_to_float digits_to_int
                demo_packs_ac1p [] [] [] []
                (mkAcc 2 3 4.5 200 400 800) (selection "ac1p" "heater" 7)
                demo_packs_ac1p
                [ ("kwh_day", num_list 1 2 3);
                  ("peak_w", num_list 500 600 700) ]
                7 1 2 3 500 600 700) as [_ H];
      [reflexivity | reflexivity | reflexivity | discriminate
      | reflexivity | reflexivity |].
    apply H. lia.
Defined.

(** ** The returned bands *)

Lemma peak_band_never_negative_witness :
  exists w_min w_typ w_max : Z,
    get [ ("archetype", JStr "home"); ("expert_mode", JBool false);
          ("daily_kwh_band", JArr [JNum 2.500; JNum 4.000; JNum 6.500]);
          ("peak_power_band_w", JArr [JNum 200; JNum 400; JNum 800]) ]
        "peak_power_band_w"
    = JArr [JNum (inject_Z w_min); JNum (inject_Z w_typ);
            JNum (inject_Z w_max)] /\
    (0 <= w_min)%Z /\ (0 <= w_typ)%Z /\ (0 <= w_max)%Z.
Proof.
  apply (peak_band_never_negative digits_to_float digits_to_int
           demo_archetypes demo_packs_ac1p [] [] [] []
           (Some "home") false (Some [selection "ac1p" "lighting" 1])).
  vm_compute. reflexivity.
Defined.


Lemma consistency_only_widens_around_typical_witness :
  exists a lo hi,
    demo_load_totals (Some "home") false [selection "ac1p" "lighting" 1]
    = Ok a /\
    get [ ("archetype", JStr "home"); ("expert_mode", JBool false);
          ("daily_kwh_band", JArr [JNum 2.500; JNum 4.000; JNum 6.500]);
          ("peak_power_band_w", JArr [JNum 200; JNum 400; JNum 800]) ]
        "daily_kwh_band"
    = JArr [JNum lo; JNum (py_round (avg_kwh a) 3); JNum hi] /\
    lo <= py_round (min_kwh a) 3 /\ py_round (max_kwh a) 3 <= hi.
Proof.
  apply (consistency_only_widens_around_typical digits_to_float digits_to_int
           demo_archetypes demo_packs_ac1p [] [] [] []
           (Some "home") false (Some [selection "ac1p" "lighting" 1])).
  vm_compute. reflexivity.
Defined.

Lemma ordered_totals_are_returned_rounded_witness :
  exists profile,
    demo_compute_load_profile (Some "home") false
      (Some [selection "ac1p" "lighting" 1]) = Ok profile /\
    get profile "daily_kwh_band"
    = JArr [JNum (py_round 2.5 3); JNum (py_round 4 3);
            JNum (py_round 6.5 3)].
Proof.
  apply (ordered_totals_are_returned_rounded digits_to_float digits_to_int
           demo_archetypes demo_packs_ac1p [] [] [] []
           (Some "home") false (Some [selection "ac1p" "lighting" 1])
           (mkAcc 2.5 4 6.5 200 400 800)).
  - vm_compute. reflexivity.
  - vm_compute. discriminate.
  - vm_compute. discriminate.
Defined.

(** ** Pack groups *)

Lemma group_names_ignore_case_witness :
  _get_pack_db demo_packs_ac1p [] [] [] [] (JStr "Ac_1P")
  = _get_pack_db demo_packs_ac1p [] [] [] [] (JStr "ac_1p")
  /\
  _get_pack_db demo_packs_ac1p [] [] [] [] (JStr "Wind")
  = Raise (KeyError "Unknown pack group: wind").
Proof.
  split.
  - apply (group_names_ignore_case demo_packs_ac1p [] [] [] [] "Ac_1P").
  - apply (group_names_ignore_case demo_packs_ac1p [] [] [] [] "Wind").
    reflexivity.
Defined.

Lemma absent_group_defaults_falsy_group_raises_witness :
  _get_pack_db demo_packs_ac1p [] [] [] []
    (get_default [ ("key", JStr "lighting") ] "group" (JStr "ac1p"))
  = Ok demo_packs_ac1p
  /\
  demo_pack_step acc_zero (selection "" "lighting" 1)
  = Raise (KeyError "Unknown pack group: ").
Proof.
  split.
  - apply (absent_group_defaults_falsy_group_raises digits_to_float
             digits_to_int demo_packs_ac1p [] [] [] []
             acc_zero [ ("key", JStr "lighting") ] 1);
      reflexivity.
  - apply (absent_group_defaults_falsy_group_raises digits_to_float
             digits_to_int demo_packs_ac1p [] [] [] []
             acc_zero (selection "" "lighting" 1) 1 eq_refl)
      with (g := JStr ""); reflexivity.
Defined.

(** ** The orchestrator *)


Lemma profile_lists_keys_and_solar_iff_requested_witness :
  dict_get
    [ ("archetype", JStr "home"); ("expert_mode", JBool false);
      ("daily_kwh_band", JArr [JNum 2.500; JNum 4.000; JNum 6.500]);
      ("peak_power_band_w", JArr [JNum 200; JNum 400; JNum 800]);
      ("selected_packs", JArr [JStr "lighting"; JStr "missing"]) ]
    "selected_packs"
  = Some (JArr (map (fun p => get p "key")
                    (resolve_packs (Some ["lighting"; "missing"]) None)))
  /\ dict_mem
       [ ("archetype", JStr "home"); ("expert_mode", JBool false);
         ("daily_kwh_band", JArr [JNum 2.500; JNum 4.000; JNum 6.500]);
         ("peak_power_band_w", JArr [JNum 200; JNum 400; JNum 800]);
         ("selected_packs", JArr [JStr "lighting"; JStr "missing"]) ]
       "solar"
     = solar_requested None None
  /\ dict_mem
       [ ("archetype", JStr "home"); ("expert_mode", JBool false);
         ("daily_kwh_band", JArr [JNum 2.500; JNum 4.000; JNum 6.500]);
         ("peak_power_band_w", JArr [JNum 200; JNum 400; JNum 800]);
         ("selected_packs", JArr [JStr "lighting"; JStr "missing"]) ]
       "savings"
     = solar_requested None None.
Proof.
  apply (profile_lists_keys_and_solar_iff_requested digits_to_float
           digits_to_int demo_archetypes demo_packs_ac1p [] [] [] []
           demo_solar (Some "home") (Some ["lighting"; "missing"]) false None
           None None).
  vm_compute. reflexivity.
Defined.

Lemma savings_use_typical_load_and_average_solar_witness :
  exists profile typical avg,
    demo_calculate_energy_profile (Some "home") None false None
      (Some "Izmir") (Some 2000) = Ok profile /\
    (exists lo hi,
       dict_get profile "daily_kwh_band"
       = Some (JArr [JNum lo; JNum typical; JNum hi])) /\
    dict_get profile "savings"
    = Some (JObj (compute_savings_profile typical avg
                    default_price default_growth default_horizon
                    default_co2)).
Proof.
  destruct (demo_calculate_energy_profile (Some "home") None false None
              (Some "Izmir") (Some 2000)) as [profile | e] eqn:E;
    [| vm_compute in E; discriminate].
  destruct (savings_use_typical_load_and_average_solar digits_to_float
              digits_to_int demo_archetypes demo_packs_ac1p [] [] [] []
              demo_solar (Some "home") None false None "Izmir" 2000 profile
              eq_refl E)
    as (lp & sp & lo & typical & hi & avg & _ & _ & B & _ & _ & _ & _ & S).
  exists profile, typical, avg.
  split; [reflexivity |]. split; [exists lo, hi; exact B | exact S].
Defined.

(** ** Solar and savings *)


Lemma year1_savings_within_multi_year_witness :
  exists year1 multi,
    get (compute_savings_profile 4 8.48 default_price default_growth
           default_horizon default_co2) "year1_savings_tl" = JNum year1 /\
    get (compute_savings_profile 4 8.48 default_price default_growth
           default_horizon default_co2) "multi_year_savings_tl"
    = JNum multi /\
    0 <= year1 /\ year1 <= multi.
Proof.
  apply (year1_savings_within_multi_year 4 8.48 default_price default_growth
           default_horizon default_co2).
  - vm_compute. discriminate.
  - vm_compute. discriminate.
  - vm_compute. discriminate.
  - vm_compute. discriminate.
  - vm_compute. discriminate.
Defined.


(** ** The recommender *)


Lemma recommended_tiers_are_catalog_copies_witness :
  exists tid d,
    In (tid, JObj d) (dict_or None demo_tiers) /\
    dict_mem [ ("capacity_wh_total", JNum 2000);
               ("inverter_w_continuous", JNum 2400);
               ("tier_id", JStr "tier_2_comfort") ] "tier_id" = true /\
    (dict_get d "tier_id" = None ->
     dict_get [ ("capacity_wh_total", JNum 2000);
                ("inverter_w_continuous", JNum 2400);
                ("tier_id", JStr "tier_2_comfort") ] "tier_id"
     = Some (JStr tid)) /\
    (dict_mem d "tier_id" = true ->
     [ ("capacity_wh_total", JNum 2000);
       ("inverter_w_continuous", JNum 2400);
       ("tier_id", JStr "tier_2_comfort") ] = d) /\
    (forall k, k <> "tier_id" ->
       dict_get [ ("capacity_wh_total", JNum 2000);
                  ("inverter_w_continuous", JNum 2400);
                  ("tier_id", JStr "tier_2_comfort") ] k
       = dict_get d k).
Proof.
  apply (recommended_tiers_are_catalog_copies digits_to_float demo_tiers
           [ ("daily_kwh_band", num_list 1 1.5 2);
             ("peak_power_band_w", num_list 100 200 1000) ]
           None
           [ [ ("capacity_wh_total", JNum 2000);
               ("inverter_w_continuous", JNum 2400);
               ("tier_id", JStr "tier_2_comfort") ];
             [ ("capacity_wh_total", JNum 6000);
               ("inverter_w_continuous", JNum 3600);
               ("tier_id", JStr "tier_3_pro") ] ]).
  - vm_compute. reflexivity.
  - left. reflexivity.
Defined.


Lemma no_eligible_tier_gives_default_or_largest_witness :
  recommend_ecoflow_tiers digits_to_float demo_tiers
    [ ("daily_kwh_band", num_list 1 100 200);
      ("peak_power_band_w", num_list 100 200 1000) ] None
  = Ok [ tier_copy "tier_2_comfort"
           [ ("capacity_wh_total", JNum 2000);
             ("inverter_w_continuous", JNum 2400) ] ].
Proof.
  destruct (no_eligible_tier_gives_default_or_largest digits_to_float
              demo_tiers
              [ ("daily_kwh_band", num_list 1 100 200);
                ("peak_power_band_w", num_list 100 200 1000) ]
              None (1, 100, 200) (100, 200, 1000)) as [H _].
  - exact demo_tiers_all_dicts.
  - reflexivity.
  - reflexivity.
  - intros tid d [E | [E | [E | []]]]; inversion E; subst; reflexivity.
  - apply H. reflexivity.
Defined.

Lemma lower_requirements_keep_recommendations_witness :
  In [ ("capacity_wh_total", JNum 2000);
       ("inverter_w_continuous", JNum 2400);
       ("tier_id", JStr "tier_2_comfort") ]
     [ [ ("capacity_wh_total", JNum 1000);
         ("inverter_w_continuous", JNum 1800);
         ("tier_id", JStr "tier_1_basic") ];
       [ ("capacity_wh_total", JNum 2000);
         ("inverter_w_continuous", JNum 2400);
         ("tier_id", JStr "tier_2_comfort") ];
       [ ("capacity_wh_total", JNum 6000);
         ("inverter_w_continuous", JNum 3600);
         ("tier_id", JStr "tier_3_pro") ] ].
Proof.
  apply (lower_requirements_keep_recommendations digits_to_float
           [ ("daily_kwh_band", num_list 1 1.5 2);
             ("peak_power_band_w", num_list 100 200 1000) ]
           [ ("daily_kwh_band", num_list 1 1 2);
             ("peak_power_band_w", num_list 100 200 500) ]
           demo_tiers 1 1.5 2 1 1 2 (100, 200, 1000) (100, 200, 500)
           [ [ ("capacity_wh_total", JNum 2000);
               ("inverter_w_continuous", JNum 2400);
               ("tier_id", JStr "tier_2_comfort") ];
             [ ("capacity_wh_total", JNum 6000);
               ("inverter_w_continuous", JNum 3600);
               ("tier_id", JStr "tier_3_pro") ] ]).
  - reflexivity.
  - reflexivity.
  - reflexivity.
  - reflexivity.
  - vm_compute. discriminate.
  - vm_compute. discriminate.
  - vm_compute. reflexivity.
  - vm_compute. reflexivity.
  - left. reflexivity.
Defined.
